(** * shift_dev.io.decompress_videos: archive-staged video-to-frames conversion

    A shallow embedding of [src/shift_dev/io/decompress_videos.py] and the
    properties its specification states about it.

    The Python module is effectful: it reads tar archives, stages members on
    disk, drives an OpenCV decoder, writes image files, logs, and raises
    exceptions.  The embedding threads an explicit [world] through every call
    and returns an [outcome] that is either a normal return or a raised
    exception, each carrying the world reached at that point. *)

From Stdlib Require Import String Ascii List Bool NArith ZArith Arith Lia FinFun.
Import ListNotations.
Local Open Scope string_scope.
Local Open Scope list_scope.

(** ** Python string and path primitives used by the module *)

Module Py.

(** [s.endswith(suffix)] *)
Fixpoint endswith (s suffix : string) : bool :=
  if String.eqb s suffix then true
  else match s with
       | EmptyString => false
       | String _ s' => endswith s' suffix
       end.

(** [s.startswith(p)] *)
Fixpoint startswith (s p : string) {struct p} : bool :=
  match p with
  | EmptyString => true
  | String a p' =>
      match s with
      | EmptyString => false
      | String b s' => Ascii.eqb a b && startswith s' p'
      end
  end.

(** [old in s]: does [old] occur somewhere in [s]? *)
Fixpoint occurs (old s : string) : bool :=
  startswith s old ||
  match s with
  | EmptyString => false
  | String _ s' => occurs old s'
  end.

(** [s.replace(old, new)] for a non-empty [old]: every non-overlapping
    occurrence, scanning left to right.  [skip] counts the characters of an
    occurrence just replaced that still have to be dropped. *)
Fixpoint replace_from (old new : string) (skip : nat) (s : string) : string :=
  match s with
  | EmptyString => EmptyString
  | String c s' =>
      match skip with
      | S k => replace_from old new k s'
      | O =>
          if startswith s old
          then new ++ replace_from old new (String.length old - 1) s'
          else String c (replace_from old new 0 s')
      end
  end.

Definition replace (s old new : string) : string := replace_from old new 0 s.

(** [s[-n:]] for a positive [n]: the last [n] characters, the whole string
    when it is shorter. *)
Fixpoint last_chars (n : nat) (s : string) : string :=
  if Nat.leb (String.length s) n then s
  else match s with
       | EmptyString => EmptyString
       | String _ s' => last_chars n s'
       end.

(** [s.split('.')[0]]: everything before the first dot. *)
Fixpoint split_dot_0 (s : string) : string :=
  match s with
  | EmptyString => EmptyString
  | String c s' => if Ascii.eqb c "." then EmptyString else String c (split_dot_0 s')
  end.

Fixpoint has_slash (s : string) : bool :=
  match s with
  | EmptyString => false
  | String c s' => Ascii.eqb c "/" || has_slash s'
  end.

(** [os.path.basename(p)] (posixpath): everything after the last slash. *)
Fixpoint basename (p : string) : string :=
  match p with
  | EmptyString => EmptyString
  | String c p' =>
      if has_slash p' then basename p'
      else if Ascii.eqb c "/" then p' else p
  end.

(** The directory part of a path, with its final slash: everything up to and
    including the last slash, nothing for a bare file name. *)
Fixpoint parent_prefix (p : string) : string :=
  match p with
  | EmptyString => EmptyString
  | String c p' => if has_slash p then String c (parent_prefix p') else EmptyString
  end.

(** [os.path.join(a, b)] (posixpath, two arguments). *)
Definition os_path_join (a b : string) : string :=
  if startswith b "/" then b
  else if String.eqb a "" || endswith a "/" then a ++ b
  else a ++ "/" ++ b.

(** The prefix every path below directory [dir] starts with. *)
Definition dir_prefix (dir : string) : string :=
  if String.eqb dir "" || endswith dir "/" then dir else dir ++ "/".

(** [s[len(p):]] when [s.startswith(p)]. *)
Fixpoint strip_prefix (p s : string) : option string :=
  match p, s with
  | EmptyString, _ => Some s
  | String a p', String b s' => if Ascii.eqb a b then strip_prefix p' s' else None
  | String _ _, EmptyString => None
  end.

(** Decimal digits of a non-negative integer, most significant first.
    [fuel] bounds the number of digits produced. *)
Definition digit (d : N) : ascii := ascii_of_N (48 + d).

Fixpoint digits_fuel (fuel : nat) (n : N) : string :=
  match fuel with
  | O => EmptyString
  | S fuel' =>
      if (n <? 10)%N then String (digit n) EmptyString
      else digits_fuel fuel' (n / 10) ++ String (digit (n mod 10)) EmptyString
  end.

(** [str(n)] for [n >= 0]; a number has no more decimal digits than bits. *)
Definition str (n : N) : string := digits_fuel (S (N.size_nat n)) n.

Fixpoint zeros (k : nat) : string :=
  match k with
  | O => EmptyString
  | S k' => String "0" (zeros k')
  end.

(** ["{:0Wd}".format(n)] for [n >= 0]: at least [W] characters, padded on the
    left with zeros. *)
Definition zfill (width : nat) (s : string) : string :=
  zeros (width - String.length s) ++ s.

(** ["{:08d}.jpg".format(frame_id)] *)
Definition frame_filename (frame_id : N) : string :=
  zfill 8 (str frame_id) ++ ".jpg".

(** The value of a string of decimal digits (used to read a file name back). *)
Definition digit_value (c : ascii) : N := N_of_ascii c - 48.

Fixpoint decimal_value_from (acc : N) (s : string) : N :=
  match s with
  | EmptyString => acc
  | String c s' => decimal_value_from (10 * acc + digit_value c) s'
  end.

Definition decimal_value (s : string) : N := decimal_value_from 0 s.

End Py.


(** ** The world the module acts on

    Everything outside the module is part of the world: the input archives
    on disk, the glob expansion, the video decoder and the image encoder are
    read-only capabilities; regular files, directories, output archives, the
    log and a trace of the calls made on external objects are the mutable
    part.  Input archives are only ever read and output archives only ever
    written, so the two are kept in stores of their own, apart from the
    regular files. *)

(** A decoded frame and the bytes of a file are opaque payloads. *)
Definition frame := string.
Definition bytes := string.

Inductive level := INFO | ERROR.

(** Calls on external objects that leave no other mark in the world. *)
Inductive event :=
| Staged (archive member path : string)   (* [extract_file] wrote [member] of [archive] at [path] *)
| Captured (path : string)                (* [cv2.VideoCapture(path)] *)
| Wrote (path : string) (f : frame)       (* [cv2.imwrite(path, f)] *)
| Released                                (* [video.release()] *)
| Removed (path : string).                (* [os.remove(path)] *)

(** An output archive: one top-level entry per [add_file] call, each holding
    the files found under the added directory (relative name, bytes). *)
Record tar_out := {
  entries : list (string * list (string * bytes));
  finalized : bool
}.

Record world := {
  w_archives : string -> option (list (string * bytes));
  w_glob : string -> list string;
  w_decode : bytes -> option (list (option frame));
  w_encode : frame -> bytes;
  w_files : list (string * bytes);
  w_dirs : list string;
  w_out : list (string * tar_out);
  w_log : list (level * string);
  w_trace : list event
}.

Definition set_files (fs : list (string * bytes)) (w : world) : world :=
  {| w_archives := w_archives w; w_glob := w_glob w; w_decode := w_decode w;
     w_encode := w_encode w; w_files := fs; w_dirs := w_dirs w;
     w_out := w_out w; w_log := w_log w; w_trace := w_trace w |}.

Definition set_dirs (ds : list string) (w : world) : world :=
  {| w_archives := w_archives w; w_glob := w_glob w; w_decode := w_decode w;
     w_encode := w_encode w; w_files := w_files w; w_dirs := ds;
     w_out := w_out w; w_log := w_log w; w_trace := w_trace w |}.

Definition set_out (o : list (string * tar_out)) (w : world) : world :=
  {| w_archives := w_archives w; w_glob := w_glob w; w_decode := w_decode w;
     w_encode := w_encode w; w_files := w_files w; w_dirs := w_dirs w;
     w_out := o; w_log := w_log w; w_trace := w_trace w |}.

Definition add_log (l : level) (msg : string) (w : world) : world :=
  {| w_archives := w_archives w; w_glob := w_glob w; w_decode := w_decode w;
     w_encode := w_encode w; w_files := w_files w; w_dirs := w_dirs w;
     w_out := w_out w; w_log := w_log w ++ [(l, msg)]; w_trace := w_trace w |}.

Definition add_event (e : event) (w : world) : world :=
  {| w_archives := w_archives w; w_glob := w_glob w; w_decode := w_decode w;
     w_encode := w_encode w; w_files := w_files w; w_dirs := w_dirs w;
     w_out := w_out w; w_log := w_log w; w_trace := w_trace w ++ [e] |}.

(** Association lists keyed by path. *)
Fixpoint lookup {A} (k : string) (l : list (string * A)) : option A :=
  match l with
  | [] => None
  | (k', v) :: l' => if String.eqb k k' then Some v else lookup k l'
  end.

Definition delete {A} (k : string) (l : list (string * A)) : list (string * A) :=
  filter (fun kv => negb (String.eqb k (fst kv))) l.

Definition store {A} (k : string) (v : A) (l : list (string * A)) : list (string * A) :=
  delete k l ++ [(k, v)].

(** The files below directory [dir], by their name relative to it. *)
Definition files_under (dir : string) (fs : list (string * bytes)) : list (string * bytes) :=
  flat_map (fun kv => match Py.strip_prefix (Py.dir_prefix dir) (fst kv) with
                      | Some rel => [(rel, snd kv)]
                      | None => []
                      end) fs.

Definition is_under (dir path : string) : bool :=
  match Py.strip_prefix (Py.dir_prefix dir) path with
  | Some _ => true
  | None => false
  end.

(** ** Python values, exceptions and the state-and-exception monad *)

Inductive exn :=
| OSError (msg : string)
| KeyError (key : string)
| TypeError (msg : string)
| SystemExit.

(** [except Exception] catches everything but [SystemExit]. *)
Definition is_Exception (e : exn) : bool :=
  match e with
  | SystemExit => false
  | _ => true
  end.

Inductive value :=
| VNone
| VInt (n : Z)
| VStr (s : string)
| VExc (e : exn).

Inductive outcome (A : Type) :=
| Return (a : A) (w : world)
| Raise (e : exn) (w : world).
Arguments Return {A} a w.
Arguments Raise {A} e w.

Definition io (A : Type) : Type := world -> outcome A.

Definition ret {A} (a : A) : io A := fun w => Return a w.

Definition raise {A} (e : exn) : io A := fun w => Raise e w.

Definition bind {A B} (m : io A) (k : A -> io B) : io B :=
  fun w => match m w with
           | Return a w' => k a w'
           | Raise e w' => Raise e w'
           end.

Notation "x <- m ;; k" := (bind m (fun x => k))
  (at level 61, m at next level, right associativity).
Notation "m ;;; k" := (bind m (fun _ => k))
  (at level 61, right associativity).

(** [try: x = body  except Exception as e: handler(e)  (else) rest(x)] *)
Definition try_except {A B} (body : io A) (handler : exn -> io B) (rest : A -> io B) : io B :=
  fun w => match body w with
           | Return a w' => rest a w'
           | Raise e w' => if is_Exception e then handler e w' else Raise e w'
           end.

(** [for x in l: body(x)] *)
Fixpoint for_each {A} (l : list A) (body : A -> io unit) : io unit :=
  match l with
  | [] => ret tt
  | x :: l' => body x ;;; for_each l' body
  end.

Definition final_world {A} (o : outcome A) : world :=
  match o with
  | Return _ w => w
  | Raise _ w => w
  end.

(** ** External operations the module calls *)

(** [a + b]: two strings concatenate, two integers add, anything else is a
    [TypeError]. *)
Definition py_add (a b : value) : io value :=
  match a, b with
  | VStr x, VStr y => ret (VStr (x ++ y))
  | VInt x, VInt y => ret (VInt (x + y))
  | VStr _, _ => raise (TypeError "can only concatenate str to str")
  | _, _ => raise (TypeError "unsupported operand type(s) for +")
  end.

(** [str(v)] as the logger renders its argument. *)
Definition render (v : value) : string :=
  match v with
  | VNone => "None"
  | VInt n => if (n <? 0)%Z then "-" ++ Py.str (Z.abs_N n) else Py.str (Z.abs_N n)
  | VStr s => s
  | VExc (OSError m) => m
  | VExc (KeyError k) => k
  | VExc (TypeError m) => m
  | VExc SystemExit => ""
  end.

(** Modelled from the spec: the logger comes from [shift_dev/utils/logs.py],
    which is not part of the sources at hand; failures are surfaced as log
    messages, recorded here with their level. *)
Definition logger_error (msg : value) : io unit :=
  fun w => Return tt (add_log ERROR (render msg) w).

Definition logger_info (msg : string) : io unit :=
  fun w => Return tt (add_log INFO msg w).

(** [exit()] *)
Definition py_exit {A} : io A := raise SystemExit.

(** [glob.glob(pattern, recursive=True)] *)
Definition glob_glob (pattern : string) : io (list string) :=
  fun w => Return (w_glob w pattern) w.

(** [os.makedirs(path, exist_ok=True)]: the directory is recorded under the
    path string given; intermediate directories are not tracked.  The call is
    taken to succeed: an empty path, or a regular file in the way, on which
    the real call raises, are outside the model. *)
Definition os_makedirs (path : string) : io unit :=
  fun w => if existsb (String.eqb path) (w_dirs w) then Return tt w
           else Return tt (set_dirs (w_dirs w ++ [path]) w).

(** [os.remove(path)] *)
Definition os_remove (path : string) : io unit :=
  fun w => match lookup path (w_files w) with
           | Some _ => Return tt (add_event (Removed path) (set_files (delete path (w_files w)) w))
           | None => Raise (OSError "No such file or directory") w
           end.

(** [shutil.rmtree(path)]: the directory and every file below it. *)
Definition shutil_rmtree (path : string) : io unit :=
  fun w => if existsb (String.eqb path) (w_dirs w)
           then Return tt
                  (set_dirs (filter (fun d => negb (String.eqb path d)) (w_dirs w))
                     (set_files (filter (fun kv => negb (is_under path (fst kv))) (w_files w)) w))
           else Raise (OSError "No such file or directory") w.

(** *** The archive reader and writer of [shift_dev.utils.storage] *)

(** Modelled from the spec: an archive opened for reading is an ordered
    collection of named members (name, byte content), backed by one file. *)
Record TarArchiveReader := {
  r_path : string;
  r_members : list (string * bytes)
}.

(** Modelled from the spec: [shift_dev/utils/storage.py] is not part of the
    sources at hand.  [open(path)] yields a reader or fails with an open error
    when the file is missing, unreadable or not a valid archive. *)
Definition TarArchiveReader_open (filename : string) : io TarArchiveReader :=
  fun w => match w_archives w filename with
           | Some ms => Return {| r_path := filename; r_members := ms |} w
           | None => Raise (OSError "cannot open archive") w
           end.

(** Modelled from the spec: [list()] is the sequence of member names in the
    archive's internal order. *)
Definition get_list (r : TarArchiveReader) : list string := map fst (r_members r).

(** Modelled from the spec: [extract(name, destDir)] fails when [name] is not
    present and otherwise writes exactly one file into [destDir] at a path
    derived from [name], here [os.path.join(destDir, name)], which is where
    [convert_from_tar] looks for it.  A write that fails for lack of space or
    permission is outside the model. *)
Definition extract_file (r : TarArchiveReader) (name dest : string) : io unit :=
  fun w => match lookup name (r_members r) with
           | Some c =>
               Return tt (add_event (Staged (r_path r) name (Py.os_path_join dest name))
                            (set_files (store (Py.os_path_join dest name) c (w_files w)) w))
           | None => Raise (KeyError name) w
           end.

(** Modelled from the spec: [close()] releases the reader. *)
Definition reader_close (r : TarArchiveReader) : io unit := ret tt.

(** Modelled from the spec: [create(path)] yields a writer on a new, empty
    archive at [path]; the writer is known by that path.  Creation is taken
    to succeed, and the archive goes to the store of output archives: a path
    that is also an input archive is outside the model. *)
Definition TarArchiveWriter_create (filename : string) : io string :=
  fun w => Return filename
             (set_out (store filename {| entries := []; finalized := false |} (w_out w)) w).

(** Modelled from the spec: [addFile(sourcePath, arcName)] adds the contents
    of the directory [sourcePath] under the name [arcName]. *)
Definition add_file (writer source arcname : string) : io unit :=
  fun w => match lookup writer (w_out w) with
           | Some t =>
               Return tt
                 (set_out (store writer
                             {| entries := entries t ++ [(arcname, files_under source (w_files w))];
                                finalized := finalized t |} (w_out w)) w)
           | None => Raise (OSError "archive is not open for writing") w
           end.

(** Modelled from the spec: [close()] finalizes the archive. *)
Definition writer_close (writer : string) : io unit :=
  fun w => match lookup writer (w_out w) with
           | Some t =>
               Return tt
                 (set_out (store writer {| entries := entries t; finalized := true |} (w_out w)) w)
           | None => Raise (OSError "archive is not open for writing") w
           end.

(** *** The OpenCV decoder *)

(** A capture object: whether it opened, and the results its successive
    [read()] calls will give ([None] is a read with [ret == False]); once the
    list is exhausted every further read is unsuccessful. *)
Record VideoCapture := {
  cap_opened : bool;
  cap_pending : list (option frame)
}.

(** [cv2.VideoCapture(path)]: what the decoder makes of the file at [path]. *)
Definition cv2_VideoCapture (path : string) : io VideoCapture :=
  fun w =>
    Return match lookup path (w_files w) with
           | Some c => match w_decode w c with
                       | Some reads => {| cap_opened := true; cap_pending := reads |}
                       | None => {| cap_opened := false; cap_pending := [] |}
                       end
           | None => {| cap_opened := false; cap_pending := [] |}
           end
           (add_event (Captured path) w).

(** Is there a directory whose paths start with [prefix]?  The working
    directory and the root always exist; the others are those of [w_dirs],
    however they spell their final slash. *)
Definition dir_exists_at (w : world) (prefix : string) : bool :=
  existsb (fun d => String.eqb (Py.dir_prefix d) prefix) ("" :: "/" :: w_dirs w).

Definition dir_exists (w : world) (dir : string) : bool :=
  dir_exists_at w (Py.dir_prefix dir).

(** [cv2.imwrite(path, frame)]: the call stores the encoded frame when the
    directory of [path] exists; otherwise it writes nothing and reports that
    through its return value, which the module discards. *)
Definition cv2_imwrite (path : string) (f : frame) : io unit :=
  fun w => if dir_exists_at w (Py.parent_prefix path)
           then Return tt (add_event (Wrote path f)
                             (set_files (store path (w_encode w f) (w_files w)) w))
           else Return tt (add_event (Wrote path f) w).

(** [video.release()] *)
Definition video_release : io unit :=
  fun w => Return tt (add_event Released w).

(** [tqdm.tqdm(l)] only draws a progress bar. *)
Definition tqdm {A} (l : list A) : list A := l.

(** ** The module: [decompress_videos.py]

    The functions follow the source statement by statement; the import-time
    check of the OpenCV version and the parsing of the command line (whose
    result is the record [Args]) are not part of the embedding. *)

(** The [while video.isOpened(): ...] loop of [convert_from_tar], entered
    with an opened capture; it recurses on the reads the capture still holds
    and returns the final [frame_id]. *)
Fixpoint read_loop (output_dir : string) (pending : list (option frame))
    (frame_id : N) : io N :=
  match pending with
  | Some f :: rest =>
      cv2_imwrite (Py.os_path_join output_dir (Py.frame_filename frame_id)) f ;;;
      read_loop output_dir rest (frame_id + 1)
  | None :: _ => ret frame_id
  | [] => ret frame_id
  end.

Definition convert_from_tar (tar_file : TarArchiveReader)
    (video_name output_dir tmp_dir : string) : io value :=
  extract_file tar_file video_name tmp_dir ;;;
  video <- cv2_VideoCapture (Py.os_path_join tmp_dir video_name) ;;
  (if negb (cap_opened video)
   then logger_error (VStr "Error opening video stream or file!")
   else ret tt) ;;;
  _ <- (if cap_opened video
        then read_loop output_dir (cap_pending video) 0
        else ret 0%N) ;;
  video_release ;;;
  os_remove (Py.os_path_join tmp_dir video_name) ;;;
  ret VNone.

(** The [except] clause shared by both converters. *)
Definition cannot_open (tar_filepath : string) (e : exn) : io value :=
  msg <- py_add (VStr ("Cannot open " ++ tar_filepath ++ ". ")) (VExc e) ;;
  logger_error msg ;;;
  ret VNone.

Definition arcname_of (f : string) : string := Py.split_dot_0 (Py.basename f).

(** The body of the [for f in file_list] loop of [convert_to_tar]. *)
Definition tar_body (tar_filepath tmp_dir : string) (tar_file : TarArchiveReader)
    (tar_writer : string) (f : string) : io unit :=
  if Py.endswith f ".mp4" then
    let output_dir :=
      Py.os_path_join (Py.replace tar_filepath ".tar" "_tmp") (arcname_of f) in
    os_makedirs output_dir ;;;
    _ <- convert_from_tar tar_file f output_dir tmp_dir ;;
    add_file tar_writer output_dir (arcname_of f) ;;;
    shutil_rmtree output_dir
  else ret tt.

Definition convert_to_tar (tar_filepath tmp_dir : string) (show_progress_bar : bool)
    : io value :=
  try_except (TarArchiveReader_open tar_filepath) (cannot_open tar_filepath)
    (fun tar_file =>
       tar_writer <- TarArchiveWriter_create
                       (Py.replace tar_filepath ".tar" "_decompressed.tar") ;;
       let file_list := get_list tar_file in
       let file_list := if show_progress_bar then tqdm file_list else file_list in
       for_each file_list (tar_body tar_filepath tmp_dir tar_file tar_writer) ;;;
       reader_close tar_file ;;;
       writer_close tar_writer ;;;
       ret VNone).

(** The body of the [for f in file_list] loop of [convert_to_folder]. *)
Definition folder_body (tar_filepath tmp_dir : string) (tar_file : TarArchiveReader)
    (f : string) : io unit :=
  if Py.endswith f ".mp4" then
    let output_dir :=
      Py.os_path_join (Py.replace tar_filepath ".tar" "") (Py.replace f ".mp4" "") in
    os_makedirs output_dir ;;;
    _ <- convert_from_tar tar_file f output_dir tmp_dir ;;
    ret tt
  else ret tt.

Definition convert_to_folder (tar_filepath tmp_dir : string) (show_progress_bar : bool)
    : io value :=
  try_except (TarArchiveReader_open tar_filepath) (cannot_open tar_filepath)
    (fun tar_file =>
       let file_list := get_list tar_file in
       let file_list := if show_progress_bar then tqdm file_list else file_list in
       for_each file_list (folder_body tar_filepath tmp_dir tar_file) ;;;
       ret VNone).

Inductive Mode := folder | tar.

Definition mode_name (m : Mode) : string :=
  match m with
  | folder => "folder"
  | tar => "tar"
  end.

Definition CONVERT_MAP (m : Mode) : string -> string -> bool -> io value :=
  match m with
  | folder => convert_to_folder
  | tar => convert_to_tar
  end.

(** The parsed command line. *)
Record Args := {
  files : string;
  mode : Mode;
  jobs : Z;
  tmp_dir : string
}.

(** [list(pool.imap(convert_fn, files))] under one admissible schedule: the
    tasks complete in submission order and an exception re-raised in the
    parent ends the pool before a later task has started. *)
Definition pool_imap (convert_fn : string -> io value) (fs : list string) : io unit :=
  for_each fs (fun f => _ <- convert_fn f ;; ret tt).

Definition main (args : Args) : io value :=
  (if negb (String.eqb (Py.last_chars 4 (files args)) ".tar")
   then logger_error (VStr "File pattern must end with '.tar'!") ;;; py_exit
   else ret tt) ;;;
  fs <- glob_glob (files args) ;;
  logger_info ("Files to convert: " ++ Py.str (N.of_nat (List.length fs))) ;;;
  logger_info ("Starting conversion to " ++ mode_name (mode args)) ;;;
  let convert := CONVERT_MAP (mode args) in
  os_makedirs (tmp_dir args) ;;;
  (if (jobs args >? 1)%Z
   then pool_imap (fun f => convert f (tmp_dir args) false) fs
   else
     logger_info
       "Note: You can also run this code using multi-processing by setting `-j` option." ;;;
     for_each fs (fun f =>
       logger_info ("Processing " ++ f) ;;;
       _ <- convert f (tmp_dir args) true ;;
       ret tt)) ;;;
  ret VNone.

(** ** Vocabulary for the properties *)

(** The frames a capture delivers before its first unsuccessful read. *)
Fixpoint leading_frames (pending : list (option frame)) : list frame :=
  match pending with
  | Some f :: rest => f :: leading_frames rest
  | None :: _ => []
  | [] => []
  end.

(** The frames the decoder of world [w] delivers for a file of bytes [c]:
    none when it cannot open it. *)
Definition decoded_frames (w : world) (c : bytes) : list frame :=
  match w_decode w c with
  | Some reads => leading_frames reads
  | None => []
  end.

(** Frames paired with consecutive indices from [i] on. *)
Fixpoint numbered (i : N) (l : list frame) : list (N * frame) :=
  match l with
  | [] => []
  | f :: l' => (i, f) :: numbered (i + 1) l'
  end.

(** The indices [i, i+1, ..., i+n-1]. *)
Fixpoint indices (i : N) (n : nat) : list N :=
  match n with
  | O => []
  | S n' => i :: indices (i + 1) n'
  end.

Definition frame_path (output_dir : string) (k : N) : string :=
  Py.os_path_join output_dir (Py.frame_filename k).

(** The [imwrite] calls for frames [l] numbered from [i] on. *)
Definition written (output_dir : string) (i : N) (l : list frame) : list event :=
  map (fun kf => Wrote (frame_path output_dir (fst kf)) (snd kf)) (numbered i l).

(** The file store after those calls. *)
Definition frames_stored (encode : frame -> bytes) (output_dir : string) (i : N)
    (l : list frame) (fs : list (string * bytes)) : list (string * bytes) :=
  fold_left (fun acc kf => store (frame_path output_dir (fst kf)) (encode (snd kf)) acc)
            (numbered i l) fs.

(** The same, when the output directory may be missing: nothing is stored
    then. *)
Definition frames_written (ok : bool) (encode : frame -> bytes) (output_dir : string)
    (i : N) (l : list frame) (fs : list (string * bytes)) : list (string * bytes) :=
  if ok then frames_stored encode output_dir i l fs else fs.

(** What [convert_from_tar] leaves untouched. *)
Definition same_dirs_out (w w' : world) : Prop :=
  w_dirs w' = w_dirs w /\ w_out w' = w_out w.

(** The capabilities of the world that no operation changes. *)
Definition same_env (w w' : world) : Prop :=
  w_archives w' = w_archives w /\ w_glob w' = w_glob w /\
  w_decode w' = w_decode w /\ w_encode w' = w_encode w.

(** Projections of a trace. *)
Definition wrote_paths (t : list event) : list string :=
  flat_map (fun e => match e with Wrote p _ => [p] | _ => [] end) t.

Definition staged_paths (t : list event) : list string :=
  flat_map (fun e => match e with Staged _ _ p => [p] | _ => [] end) t.

Definition staged_members (t : list event) : list string :=
  flat_map (fun e => match e with Staged _ m _ => [m] | _ => [] end) t.

Definition is_released (e : event) : bool :=
  match e with Released => true | _ => false end.

Definition is_removed (path : string) (e : event) : bool :=
  match e with Removed p => String.eqb p path | _ => false end.

Definition count (p : event -> bool) (t : list event) : nat :=
  List.length (filter p t).

Definition errors (log : list (level * string)) : list string :=
  flat_map (fun lm => match fst lm with ERROR => [snd lm] | INFO => [] end) log.

Definition is_mp4 (f : string) : bool := Py.endswith f ".mp4".

(** The log entry of a video the decoder cannot open. *)
Definition open_error : level * string := (ERROR, "Error opening video stream or file!").

(** The capture's next read is unsuccessful: it has nothing left, or what it
    has left starts with a failed read. *)
Definition stops_here (rest : list (option frame)) : Prop :=
  match rest with
  | Some _ :: _ => False
  | _ => True
  end.

(** A member's stem in the usual sense: its base name without the extension,
    that is, without its last dot and what follows it.  (The module computes
    [arcname_of] instead.) *)
Fixpoint before_last_dot (s : string) : string :=
  match s with
  | EmptyString => EmptyString
  | String c s' =>
      if Py.occurs "." s' then String c (before_last_dot s')
      else if Ascii.eqb c "." then EmptyString else s
  end.

Definition member_stem (f : string) : string := before_last_dot (Py.basename f).

(** No file appears: whatever is in the file store of [w'] was already in
    that of [w], with the same bytes. *)
Definition no_new_files (w w' : world) : Prop :=
  forall q v, lookup q (w_files w') = Some v -> lookup q (w_files w) = Some v.

(** The video members of the archive at [path], in listing order. *)
Definition video_members (w : world) (path : string) : list string :=
  match w_archives w path with
  | Some ms => filter is_mp4 (map fst ms)
  | None => []
  end.

(** Is [f] a member of [ms] that the decoder of [w] cannot open? *)
Definition unopenable (w : world) (ms : list (string * bytes)) (f : string) : bool :=
  match lookup f ms with
  | Some c => match w_decode w c with
              | Some _ => false
              | None => true
              end
  | None => false
  end.

(** The error lines expected for the members [l] of an archive holding [ms]:
    one per video member that cannot be opened. *)
Definition open_errors (w : world) (ms : list (string * bytes)) (l : list string)
    : list (level * string) :=
  map (fun _ => open_error) (filter (unopenable w ms) (filter is_mp4 l)).

Definition is_digit (c : ascii) : bool :=
  (48 <=? N_of_ascii c)%N && (N_of_ascii c <=? 57)%N.

Fixpoint all_digits (s : string) : bool :=
  match s with
  | EmptyString => true
  | String c s' => is_digit c && all_digits s'
  end.

(** What a run returned or raised. *)
Definition result {A} (o : outcome A) : A + exn :=
  match o with
  | Return a _ => inl a
  | Raise e _ => inr e
  end.

(** ** A small concrete world

    The toy decoder opens a file whose bytes start with [V:] and delivers one
    frame per following character, an exclamation mark standing for an
    unsuccessful read. *)

Fixpoint toy_reads (s : string) : list (option frame) :=
  match s with
  | EmptyString => []
  | String c s' =>
      (if Ascii.eqb c "!" then None else Some (String c EmptyString)) :: toy_reads s'
  end.

Definition toy_decode (c : bytes) : option (list (option frame)) :=
  match Py.strip_prefix "V:" c with
  | Some body => Some (toy_reads body)
  | None => None
  end.

Definition toy_encode (f : frame) : bytes := ("JPG:" ++ f)%string.

Definition toy_archives (path : string) : option (list (string * bytes)) :=
  if String.eqb path "videos.tar" then
    Some [("clip1.mp4", "V:abc"); ("readme.txt", "hello")]
  else if String.eqb path "other.tar" then
    Some [("clip1.mp4", "V:xy")]
  else if String.eqb path "v.tar.d/x.tar" then
    Some [("a/clip.v2.mp4", "V:a")]
  else if String.eqb path "mixed.tar" then
    Some [("bad.mp4", "garbage"); ("clip2.mp4", "V:ab")]
  else if String.eqb path "cut.tar" then
    Some [("clip3.mp4", "V:ab!c")]
  else if String.eqb path "docs.tar" then
    Some [("readme.txt", "hello"); ("notes.md", "todo")]
  else None.

Definition toy_glob (pattern : string) : list string :=
  if String.eqb pattern "*.tar" then ["missing.tar"; "videos.tar"]
  else [].

Definition toy_world : world :=
  {| w_archives := toy_archives; w_glob := toy_glob;
     w_decode := toy_decode; w_encode := toy_encode;
     w_files := []; w_dirs := []; w_out := []; w_log := []; w_trace := [] |}.

Definition toy_reader (path : string) : TarArchiveReader :=
  {| r_path := path;
     r_members := match toy_archives path with Some ms => ms | None => [] end |}.

Definition scratch : string := "/tmp/shift-dataset/".

(** The same world with the directory [out] in place. *)
Definition toy_world_out : world := set_dirs ["out"] toy_world.

(** An archive whose only member is called like a frame file, and a world in
    which the directory [d] exists. *)
Definition odd_reader : TarArchiveReader :=
  {| r_path := "odd.tar"; r_members := [("00000000.jpg", "V:ab")] |}.

Definition toy_world_d : world := set_dirs ["d"] toy_world.

(** A world whose only archive sits in a directory named [v.tar.d] and holds
    no video. *)
Definition nested_archives (path : string) : option (list (string * bytes)) :=
  if String.eqb path "v.tar.d/docs.tar" then Some [("readme.txt", "hello")]
  else None.

Definition toy_world_nested : world :=
  {| w_archives := nested_archives; w_glob := toy_glob;
     w_decode := toy_decode; w_encode := toy_encode;
     w_files := []; w_dirs := []; w_out := []; w_log := []; w_trace := [] |}.

(** The same world with a pattern that matches two readable archives. *)
Definition toy_glob_readable (pattern : string) : list string :=
  if String.eqb pattern "sets/*.tar" then ["videos.tar"; "mixed.tar"]
  else [].

Definition toy_world_readable : world :=
  {| w_archives := toy_archives; w_glob := toy_glob_readable;
     w_decode := toy_decode; w_encode := toy_encode;
     w_files := [("keep.txt", "k")]; w_dirs := []; w_out := [];
     w_log := []; w_trace := [] |}.
Example endswith_mp4 : Py.endswith "a/clip1.mp4" ".mp4" = true.
Proof. reflexivity. Qed.
Example endswith_txt : Py.endswith "readme.txt" ".mp4" = false.
Proof. reflexivity. Qed.
Example replace_once : Py.replace "videos.tar" ".tar" "_decompressed.tar" = "videos_decompressed.tar".
Proof. reflexivity. Qed.
Example replace_twice : Py.replace "v.tar.d/x.tar" ".tar" "_tmp" = "v_tmp.d/x_tmp".
Proof. reflexivity. Qed.
Example last_chars_4 : Py.last_chars 4 "data/*.tar" = ".tar".
Proof. reflexivity. Qed.
Example basename_ex : Py.basename "a/b/clip.v2.mp4" = "clip.v2.mp4".
Proof. reflexivity. Qed.
Example split_dot_ex : Py.split_dot_0 "clip.v2.mp4" = "clip".
Proof. reflexivity. Qed.
Example join_ex : Py.os_path_join "/tmp/shift-dataset/" "a/clip.mp4" = "/tmp/shift-dataset/a/clip.mp4".
Proof. reflexivity. Qed.
Example join_ex2 : Py.os_path_join "videos" "clip" = "videos/clip".
Proof. reflexivity. Qed.
Example frame_filename_ex : Py.frame_filename 12 = "00000012.jpg".
Proof. reflexivity. Qed.
Example frame_filename_big : Py.frame_filename 123456789 = "123456789.jpg".
Proof. reflexivity. Qed.
Example str_0 : Py.str 0 = "0".
Proof. reflexivity. Qed.

(** The scenario of the specification: [videos.tar] holds a three-frame
    [clip1.mp4] and a [readme.txt]. *)
Example scenario_folder_mode :
  let w' := final_world (convert_to_folder "videos.tar" scratch true toy_world) in
  w_files w' = [("videos/clip1/00000000.jpg", "JPG:a");
                ("videos/clip1/00000001.jpg", "JPG:b");
                ("videos/clip1/00000002.jpg", "JPG:c")] /\
  w_dirs w' = ["videos/clip1"] /\ w_log w' = [].
Proof. vm_compute. repeat split. Qed.

Example scenario_tar_mode :
  let w' := final_world (convert_to_tar "videos.tar" scratch true toy_world) in
  w_out w' = [("videos_decompressed.tar",
               {| entries := [("clip1", [("00000000.jpg", "JPG:a");
                                         ("00000001.jpg", "JPG:b");
                                         ("00000002.jpg", "JPG:c")])];
                  finalized := true |})] /\
  w_files w' = [] /\ w_dirs w' = [].
Proof. vm_compute. repeat split. Qed.

Example scenario_bad_pattern :
  let o := main {| files := "*.tgz"; mode := folder; jobs := 1; tmp_dir := scratch |}
             toy_world in
  result o = inr SystemExit /\
  w_log (final_world o) = [(ERROR, "File pattern must end with '.tar'!")] /\
  w_dirs (final_world o) = [].
Proof. vm_compute. repeat split. Qed.



(** ** Strings *)

Lemma append_empty_r (s : string) : (s ++ "")%string = s.
Proof. induction s as [|c s IH]; simpl; [reflexivity | now rewrite IH]. Qed.

Lemma append_assoc (a b c : string) : ((a ++ b) ++ c = a ++ (b ++ c))%string.
Proof. induction a as [|x a IH]; simpl; [reflexivity | now rewrite IH]. Qed.

Lemma length_append (a b : string) :
  String.length (a ++ b) = String.length a + String.length b.
Proof. induction a as [|x a IH]; simpl; [reflexivity | now rewrite IH]. Qed.

Lemma append_inv_head (p a b : string) : (p ++ a = p ++ b)%string -> a = b.
Proof.
  induction p as [|x p IH]; simpl; intros H; [assumption|].
  injection H as H. now apply IH.
Qed.

Lemma append_inv_tail (a b t : string) : (a ++ t = b ++ t)%string -> a = b.
Proof.
  revert b. induction a as [|x a IH]; intros [|y b] H; simpl in H.
  - reflexivity.
  - apply (f_equal String.length) in H. simpl in H.
    rewrite length_append in H. lia.
  - apply (f_equal String.length) in H. simpl in H.
    rewrite length_append in H. lia.
  - injection H as -> H. f_equal. now apply IH.
Qed.

Lemma strip_prefix_append (p s : string) : Py.strip_prefix p (p ++ s) = Some s.
Proof.
  induction p as [|x p IH]; simpl; [reflexivity|].
  now rewrite Ascii.eqb_refl.
Qed.

Lemma strip_prefix_some (p s r : string) :
  Py.strip_prefix p s = Some r -> s = (p ++ r)%string.
Proof.
  revert s. induction p as [|x p IH]; intros s H; simpl in *.
  - now injection H as ->.
  - destruct s as [|y s]; [discriminate|].
    destruct (Ascii.eqb_spec x y) as [->|]; [|discriminate].
    simpl. f_equal. now apply IH.
Qed.

(** *** [os.path.join] *)

Lemma os_path_join_relative (a b : string) :
  Py.startswith b "/" = false ->
  Py.os_path_join a b = (Py.dir_prefix a ++ b)%string.
Proof.
  intros H. unfold Py.os_path_join, Py.dir_prefix. rewrite H.
  destruct (String.eqb a "" || Py.endswith a "/"); [reflexivity|].
  now rewrite append_assoc.
Qed.

Lemma os_path_join_inj (a b1 b2 : string) :
  Py.startswith b1 "/" = false -> Py.startswith b2 "/" = false ->
  Py.os_path_join a b1 = Py.os_path_join a b2 -> b1 = b2.
Proof.
  intros H1 H2. rewrite !os_path_join_relative by assumption.
  apply append_inv_head.
Qed.

(** *** Decimal rendering *)

Lemma digit_value_digit (d : N) : (d < 10)%N -> Py.digit_value (Py.digit d) = d.
Proof.
  intros H. unfold Py.digit_value, Py.digit.
  rewrite N_ascii_embedding by lia. lia.
Qed.

Lemma digit_not_slash (d : N) : (d < 10)%N -> Py.digit d <> "/"%char.
Proof.
  intros H E. apply (f_equal N_of_ascii) in E. unfold Py.digit in E.
  rewrite N_ascii_embedding in E by lia.
  change (N_of_ascii "/") with 47%N in E. lia.
Qed.

Lemma decimal_value_from_snoc (s : string) (c : ascii) (acc : N) :
  Py.decimal_value_from acc (s ++ String c "") =
  (10 * Py.decimal_value_from acc s + Py.digit_value c)%N.
Proof.
  revert acc. induction s as [|x s IH]; intros acc; simpl; [reflexivity|].
  apply IH.
Qed.

Lemma decimal_value_digits (fuel : nat) : forall n : N,
  (n < 10 ^ N.of_nat fuel)%N ->
  Py.decimal_value (Py.digits_fuel fuel n) = n.
Proof.
  induction fuel as [|fuel IH]; intros n H.
  - simpl in H. assert (n = 0%N) by lia. subst. reflexivity.
  - cbn [Py.digits_fuel]. destruct (N.ltb_spec n 10) as [L|L].
    + unfold Py.decimal_value. cbn [Py.decimal_value_from].
      rewrite digit_value_digit by assumption. lia.
    + unfold Py.decimal_value. rewrite decimal_value_from_snoc.
      fold (Py.decimal_value (Py.digits_fuel fuel (n / 10))).
      rewrite IH.
      * rewrite digit_value_digit by (apply N.mod_lt; lia).
        rewrite (N.div_mod n 10) at 3 by lia. reflexivity.
      * rewrite Nat2N.inj_succ, N.pow_succ_r' in H.
        apply N.Div0.div_lt_upper_bound. assumption.
Qed.

Lemma pos_size_nat_gt (p : positive) : (Npos p < 2 ^ N.of_nat (Pos.size_nat p))%N.
Proof.
  induction p as [p IH|p IH|]; cbn [Pos.size_nat];
    rewrite ?Nat2N.inj_succ, ?N.pow_succ_r'; try lia.
Qed.

Lemma str_fuel_enough (n : N) : (n < 10 ^ N.of_nat (S (N.size_nat n)))%N.
Proof.
  rewrite Nat2N.inj_succ, N.pow_succ_r'.
  assert (H : (n < 2 ^ N.of_nat (N.size_nat n))%N).
  { destruct n as [|p]; [simpl; lia | apply pos_size_nat_gt]. }
  assert (H2 : (2 ^ N.of_nat (N.size_nat n) <= 10 ^ N.of_nat (N.size_nat n))%N).
  { apply N.pow_le_mono_l. lia. }
  lia.
Qed.

Lemma decimal_value_str (n : N) : Py.decimal_value (Py.str n) = n.
Proof. apply decimal_value_digits, str_fuel_enough. Qed.

Lemma decimal_value_zeros (k : nat) (s : string) :
  Py.decimal_value (Py.zeros k ++ s) = Py.decimal_value s.
Proof. induction k as [|k IH]; simpl; [reflexivity | exact IH]. Qed.

Lemma decimal_value_zfill (w : nat) (n : N) :
  Py.decimal_value (Py.zfill w (Py.str n)) = n.
Proof. unfold Py.zfill. now rewrite decimal_value_zeros, decimal_value_str. Qed.

Lemma frame_filename_inj (a b : N) :
  Py.frame_filename a = Py.frame_filename b -> a = b.
Proof.
  unfold Py.frame_filename. intros H. apply append_inv_tail in H.
  apply (f_equal Py.decimal_value) in H.
  now rewrite !decimal_value_zfill in H.
Qed.

Lemma length_zeros (k : nat) : String.length (Py.zeros k) = k.
Proof. induction k as [|k IH]; simpl; [reflexivity | now rewrite IH]. Qed.

Lemma length_digits_le (fuel : nat) : forall (k : nat) (n : N),
  (1 <= k)%nat -> (n < 10 ^ N.of_nat k)%N ->
  (String.length (Py.digits_fuel fuel n) <= k)%nat.
Proof.
  induction fuel as [|fuel IH]; intros k n Hk H; simpl; [lia|].
  destruct (N.ltb_spec n 10) as [L|L]; simpl; [lia|].
  rewrite length_append. simpl.
  destruct k as [|k]; [lia|].
  rewrite Nat2N.inj_succ, N.pow_succ_r' in H.
  assert (Hk' : (1 <= k)%nat).
  { destruct k as [|k]; [simpl in H; lia | lia]. }
  specialize (IH k (n / 10)%N Hk').
  assert (n / 10 < 10 ^ N.of_nat k)%N by (apply N.Div0.div_lt_upper_bound; assumption).
  specialize (IH H0). lia.
Qed.

(** Below 10^8 the index is rendered on exactly eight characters. *)
Lemma length_frame_filename (n : N) :
  (n < 10 ^ 8)%N -> String.length (Py.frame_filename n) = 12.
Proof.
  intros H. unfold Py.frame_filename, Py.zfill.
  rewrite !length_append, length_zeros. simpl String.length at 3.
  pose proof (length_digits_le (S (N.size_nat n)) 8 n ltac:(lia) H) as L.
  fold (Py.str n) in L. lia.
Qed.

Lemma digits_head (fuel : nat) : forall n : N,
  exists d s, (d < 10)%N /\ Py.digits_fuel (S fuel) n = String (Py.digit d) s.
Proof.
  induction fuel as [|fuel IH]; intros n; cbn [Py.digits_fuel].
  - destruct (N.ltb_spec n 10) as [L|L].
    + now exists n, EmptyString.
    + exists (n mod 10)%N, EmptyString. split; [apply N.mod_lt; lia | reflexivity].
  - destruct (N.ltb_spec n 10) as [L|L].
    + now exists n, EmptyString.
    + destruct (IH (n / 10)%N) as (d & s & Hd & E).
      cbn [Py.digits_fuel] in E. rewrite E.
      exists d, (s ++ String (Py.digit (n mod 10)) "")%string. now split.
Qed.

Lemma frame_filename_relative (n : N) :
  Py.startswith (Py.frame_filename n) "/" = false.
Proof.
  unfold Py.frame_filename, Py.zfill.
  destruct (8 - String.length (Py.str n)) as [|k]; [|reflexivity].
  destruct (digits_head (N.size_nat n) n) as (d & s & Hd & E).
  unfold Py.str. rewrite E. cbn [Py.zeros String.append Py.startswith].
  rewrite andb_true_r.
  destruct (Ascii.eqb_spec "/" (Py.digit d)) as [E'|]; [|reflexivity].
  symmetry in E'. now apply digit_not_slash in E'.
Qed.

Lemma frame_path_inj (output_dir : string) (a b : N) :
  frame_path output_dir a = frame_path output_dir b -> a = b.
Proof.
  unfold frame_path. intros H.
  apply os_path_join_inj in H; auto using frame_filename_relative.
  now apply frame_filename_inj.
Qed.

(** *** [str.replace] on the archive suffix *)

Lemma startswith_tar_append (stem : string) :
  stem <> EmptyString ->
  Py.startswith (stem ++ ".tar") ".tar" = Py.startswith stem ".tar".
Proof.
  intros H.
  destruct stem as [|c1 [|c2 [|c3 [|c4 s]]]]; [congruence| | | |];
    cbn [Py.startswith String.append];
    repeat match goal with
           | |- context [Ascii.eqb ?a ?b] =>
               first [ is_var b; destruct (Ascii.eqb a b)
                     | let v := eval vm_compute in (Ascii.eqb a b) in
                       change (Ascii.eqb a b) with v ];
               cbn [andb]
           end; reflexivity.
Qed.

(** A path [stem.tar] in which [.tar] occurs nowhere else has exactly its
    suffix replaced. *)
Lemma replace_tar_suffix (new stem : string) :
  Py.occurs ".tar" stem = false ->
  Py.replace (stem ++ ".tar") ".tar" new = (stem ++ new)%string.
Proof.
  unfold Py.replace. induction stem as [|c stem IH]; intros H.
  - simpl. now rewrite append_empty_r.
  - cbn [Py.occurs] in H. apply orb_false_iff in H as [H1 H2].
    change (String c stem ++ ".tar")%string with (String c (stem ++ ".tar")).
    cbn [Py.replace_from].
    change (String c (stem ++ ".tar")) with (String c stem ++ ".tar")%string.
    rewrite startswith_tar_append by discriminate. rewrite H1.
    rewrite IH by assumption. reflexivity.
Qed.

(** ** Association lists *)

Lemma lookup_app {A} (k : string) (a b : list (string * A)) :
  lookup k (a ++ b) = match lookup k a with Some v => Some v | None => lookup k b end.
Proof.
  induction a as [|[k' v] a IH]; simpl; [reflexivity|].
  destruct (String.eqb k k'); [reflexivity | exact IH].
Qed.

Lemma lookup_delete_eq {A} (k : string) (l : list (string * A)) :
  lookup k (delete k l) = None.
Proof.
  induction l as [|[k' v] l IH]; simpl; [reflexivity|].
  destruct (String.eqb k k') eqn:E; simpl; [exact IH | now rewrite E].
Qed.

Lemma lookup_delete_neq {A} (k k' : string) (l : list (string * A)) :
  k <> k' -> lookup k (delete k' l) = lookup k l.
Proof.
  intros N. induction l as [|[k2 v] l IH]; simpl; [reflexivity|].
  destruct (String.eqb_spec k' k2) as [->|N2]; simpl.
  - destruct (String.eqb_spec k k2); [congruence | exact IH].
  - destruct (String.eqb k k2); [reflexivity | exact IH].
Qed.

Lemma lookup_store_eq {A} (k : string) (v : A) (l : list (string * A)) :
  lookup k (store k v l) = Some v.
Proof.
  unfold store. rewrite lookup_app, lookup_delete_eq. simpl.
  now rewrite String.eqb_refl.
Qed.

Lemma lookup_store_neq {A} (k k' : string) (v : A) (l : list (string * A)) :
  k <> k' -> lookup k (store k' v l) = lookup k l.
Proof.
  intros N. unfold store. rewrite lookup_app, lookup_delete_neq by assumption.
  destruct (lookup k l); [reflexivity|]. simpl.
  destruct (String.eqb_spec k k'); [congruence | reflexivity].
Qed.

Lemma lookup_store_is_some {A} (k k' : string) (v : A) (l : list (string * A)) :
  lookup k l <> None -> lookup k (store k' v l) <> None.
Proof.
  intros H. destruct (String.eqb_spec k k') as [->|N].
  - rewrite lookup_store_eq. discriminate.
  - now rewrite lookup_store_neq.
Qed.

Lemma delete_idem {A} (k : string) (l : list (string * A)) :
  delete k (delete k l) = delete k l.
Proof.
  unfold delete. induction l as [|[k' v] l IH]; simpl; [reflexivity|].
  destruct (String.eqb k k') eqn:E; simpl; [exact IH|].
  rewrite E. simpl. now rewrite IH.
Qed.

Lemma delete_store {A} (k : string) (v : A) (l : list (string * A)) :
  delete k (store k v l) = delete k l.
Proof.
  unfold store, delete at 1. rewrite filter_app. simpl.
  rewrite String.eqb_refl. simpl. rewrite app_nil_r. apply delete_idem.
Qed.

Lemma lookup_in {A} (k : string) (l : list (string * A)) :
  In k (map fst l) -> lookup k l <> None.
Proof.
  induction l as [|[k' v] l IH]; simpl; [tauto|].
  intros [->|H].
  - rewrite String.eqb_refl. discriminate.
  - destruct (String.eqb k k'); [discriminate | now apply IH].
Qed.

Create Rewrite HintDb assoc.
#[local] Hint Rewrite @lookup_store_eq @lookup_delete_eq @delete_store @delete_idem : assoc.

(** ** Numbering of frames *)

Lemma map_fst_numbered (l : list frame) : forall i,
  map fst (numbered i l) = indices i (List.length l).
Proof. induction l as [|f l IH]; intros i; simpl; [reflexivity | now rewrite IH]. Qed.

Lemma length_numbered (l : list frame) : forall i,
  List.length (numbered i l) = List.length l.
Proof. induction l as [|f l IH]; intros i; simpl; [reflexivity | now rewrite IH]. Qed.

Lemma in_indices (n : nat) : forall i k,
  In k (indices i n) <-> (i <= k < i + N.of_nat n)%N.
Proof.
  induction n as [|n IH]; intros i k.
  - simpl. lia.
  - cbn [indices In]. rewrite IH. lia.
Qed.

Lemma NoDup_indices (n : nat) : forall i, NoDup (indices i n).
Proof.
  induction n as [|n IH]; intros i; simpl; constructor.
  - rewrite in_indices. lia.
  - apply IH.
Qed.

Lemma wrote_paths_app (a b : list event) :
  wrote_paths (a ++ b) = wrote_paths a ++ wrote_paths b.
Proof. unfold wrote_paths. apply flat_map_app. Qed.

Lemma wrote_paths_written (output_dir : string) (l : list frame) : forall i,
  wrote_paths (written output_dir i l) =
  map (frame_path output_dir) (indices i (List.length l)).
Proof.
  unfold written. induction l as [|f l IH]; intros i; simpl; [reflexivity|].
  f_equal. apply IH.
Qed.

Lemma NoDup_frame_paths (output_dir : string) (i : N) (n : nat) :
  NoDup (map (frame_path output_dir) (indices i n)).
Proof.
  apply Injective_map_NoDup.
  - intros a b. apply frame_path_inj.
  - apply NoDup_indices.
Qed.

(** ** Directories and the paths of frames *)

Lemma endswith_iff (s suffix : string) :
  Py.endswith s suffix = true <-> exists p, s = (p ++ suffix)%string.
Proof.
  induction s as [|c s IH]; cbn [Py.endswith].
  - destruct (String.eqb_spec "" suffix) as [<-|N].
    + split; [now exists ""|reflexivity].
    + split; [discriminate|]. intros ([|x p] & H); simpl in H; congruence.
  - destruct (String.eqb_spec (String c s) suffix) as [<-|N].
    + split; [now exists ""|reflexivity].
    + rewrite IH. split.
      * intros (p & ->). now exists (String c p).
      * intros ([|x p] & H); simpl in H; [congruence|].
        injection H as -> ->. now exists p.
Qed.

Lemma has_slash_append (a b : string) :
  Py.has_slash (a ++ b) = Py.has_slash a || Py.has_slash b.
Proof.
  induction a as [|c a IH]; simpl; [reflexivity|].
  now rewrite IH, orb_assoc.
Qed.

Lemma digit_is_digit (d : N) : (d < 10)%N -> is_digit (Py.digit d) = true.
Proof.
  intros H. unfold is_digit, Py.digit. rewrite N_ascii_embedding by lia.
  apply andb_true_intro. split; apply N.leb_le; lia.
Qed.

Lemma all_digits_append (a b : string) :
  all_digits (a ++ b) = all_digits a && all_digits b.
Proof.
  induction a as [|c a IH]; simpl; [reflexivity|]. now rewrite IH, andb_assoc.
Qed.

Lemma all_digits_digits_fuel (fuel : nat) : forall n, all_digits (Py.digits_fuel fuel n) = true.
Proof.
  induction fuel as [|fuel IH]; intros n; cbn [Py.digits_fuel]; [reflexivity|].
  destruct (N.ltb_spec n 10) as [L|L].
  - cbn [all_digits]. now rewrite digit_is_digit.
  - rewrite all_digits_append, IH. cbn [all_digits andb].
    rewrite digit_is_digit by (apply N.mod_lt; lia). reflexivity.
Qed.

Lemma all_digits_zfill (width : nat) (n : N) : all_digits (Py.zfill width (Py.str n)) = true.
Proof.
  unfold Py.zfill, Py.str. rewrite all_digits_append, all_digits_digits_fuel, andb_true_r.
  induction (width - _) as [|k IH]; [reflexivity | exact IH].
Qed.

Lemma append_same_length_tail (p1 p2 s1 s2 : string) :
  String.length s1 = String.length s2 ->
  (p1 ++ s1 = p2 ++ s2)%string -> s1 = s2.
Proof.
  intros L. revert p2. induction p1 as [|x p1 IH]; intros [|y p2] H; simpl in H.
  - assumption.
  - apply (f_equal String.length) in H. simpl in H. rewrite length_append in H. lia.
  - apply (f_equal String.length) in H. simpl in H. rewrite length_append in H. lia.
  - injection H as _ H. now apply IH in H.
Qed.

Lemma os_path_join_endswith (a b suffix : string) :
  Py.endswith b suffix = true -> Py.endswith (Py.os_path_join a b) suffix = true.
Proof.
  rewrite !endswith_iff. intros (p & ->). unfold Py.os_path_join.
  destruct (Py.startswith (p ++ suffix) "/"); [now exists p|].
  destruct (String.eqb a "" || Py.endswith a "/").
  - exists (a ++ p)%string. now rewrite append_assoc.
  - exists (a ++ "/" ++ p)%string. now rewrite !append_assoc.
Qed.

(** A staged video ends in [.mp4] and a frame file in [.jpg]: the two never
    coincide. *)
Lemma frame_path_not_staged (output_dir tmp_dir f : string) (k : N) :
  Py.endswith f ".mp4" = true ->
  frame_path output_dir k <> Py.os_path_join tmp_dir f.
Proof.
  intros Hf E.
  assert (H1 : Py.endswith (frame_path output_dir k) ".jpg" = true).
  { apply os_path_join_endswith, endswith_iff.
    now exists (Py.zfill 8 (Py.str k)). }
  assert (H2 : Py.endswith (Py.os_path_join tmp_dir f) ".mp4" = true)
    by now apply os_path_join_endswith.
  rewrite <- E in H2. apply endswith_iff in H1 as (p1 & H1), H2 as (p2 & H2).
  rewrite H1 in H2. apply append_same_length_tail in H2; [discriminate | reflexivity].
Qed.

Lemma dir_prefix_shape (d : string) :
  Py.dir_prefix d = EmptyString \/ Py.endswith (Py.dir_prefix d) "/" = true.
Proof.
  unfold Py.dir_prefix. destruct (String.eqb_spec d "") as [->|N]; [now left|].
  cbn [orb]. destruct (Py.endswith d "/") eqn:E; [now right|].
  right. apply endswith_iff. now exists d.
Qed.

Lemma parent_prefix_no_slash (s : string) :
  Py.has_slash s = false -> Py.parent_prefix s = EmptyString.
Proof. intros H. destruct s as [|c s]; [reflexivity|]. cbn [Py.parent_prefix]. now rewrite H. Qed.

Lemma parent_prefix_append (d n : string) :
  Py.endswith d "/" = true -> Py.has_slash n = false ->
  Py.parent_prefix (d ++ n) = d.
Proof.
  intros Hd Hn. apply endswith_iff in Hd as (p & ->).
  induction p as [|c p IH].
  - change (("" ++ "/") ++ n)%string with (String "/" n).
    cbn [Py.parent_prefix Py.has_slash]. change (Ascii.eqb "/" "/") with true.
    cbn [orb]. now rewrite parent_prefix_no_slash.
  - assert (H : Py.has_slash ((p ++ "/") ++ n) = true).
    { rewrite !has_slash_append. change (Py.has_slash "/") with true.
      now rewrite orb_true_r. }
    change ((String c p ++ "/") ++ n)%string with (String c ((p ++ "/") ++ n)).
    change (String c p ++ "/")%string with (String c (p ++ "/")).
    cbn [Py.parent_prefix Py.has_slash]. rewrite H, orb_true_r. now rewrite IH.
Qed.

Lemma all_digits_no_slash (s : string) : all_digits s = true -> Py.has_slash s = false.
Proof.
  induction s as [|c s IH]; [reflexivity|]. cbn [all_digits Py.has_slash].
  intros H. apply andb_true_iff in H as [Hc Hs]. rewrite IH by assumption.
  rewrite orb_false_r. apply Ascii.eqb_neq. intros ->. discriminate.
Qed.

Lemma frame_filename_no_slash (k : N) : Py.has_slash (Py.frame_filename k) = false.
Proof.
  unfold Py.frame_filename. rewrite has_slash_append.
  now rewrite all_digits_no_slash by apply all_digits_zfill.
Qed.

Lemma parent_prefix_frame_path (output_dir : string) (k : N) :
  Py.parent_prefix (frame_path output_dir k) = Py.dir_prefix output_dir.
Proof.
  unfold frame_path. rewrite os_path_join_relative by apply frame_filename_relative.
  destruct (dir_prefix_shape output_dir) as [->|H].
  - apply parent_prefix_no_slash, frame_filename_no_slash.
  - apply parent_prefix_append; [assumption | apply frame_filename_no_slash].
Qed.

Lemma dir_exists_recorded (w : world) (d : string) :
  existsb (String.eqb d) (w_dirs w) = true -> dir_exists w d = true.
Proof.
  intros H. apply existsb_exists in H as (x & Hx & E). apply String.eqb_eq in E. subst x.
  unfold dir_exists, dir_exists_at. apply existsb_exists. exists d.
  split; [now do 2 right | apply String.eqb_refl].
Qed.

Lemma frames_written_cons (ok : bool) (encode : frame -> bytes) (output_dir : string)
    (i : N) (f : frame) (l : list frame) (fs : list (string * bytes)) :
  frames_written ok encode output_dir i (f :: l) fs
  = frames_written ok encode output_dir (i + 1) l
      (if ok then store (frame_path output_dir i) (encode f) fs else fs).
Proof. now destruct ok. Qed.

(** ** The frame loop *)

Section FrameLoop.

Variable encode : frame -> bytes.
Variable output_dir : string.

Lemma read_loop_spec (pending : list (option frame)) :
  forall (i : N) (w : world) (ok : bool),
  dir_exists w output_dir = ok ->
  exists w',
    read_loop output_dir pending i w
      = Return (i + N.of_nat (List.length (leading_frames pending)))%N w' /\
    same_env w w' /\ same_dirs_out w w' /\
    w_log w' = w_log w /\
    w_trace w' = w_trace w ++ written output_dir i (leading_frames pending) /\
    w_files w' = frames_written ok (w_encode w) output_dir i (leading_frames pending)
                   (w_files w).
Proof.
  induction pending as [|[f|] rest IH]; intros i w ok Hok.
  - exists w. cbn. rewrite N.add_0_r, app_nil_r. repeat split. now destruct ok.
  - cbn [read_loop leading_frames]. unfold bind at 1. unfold cv2_imwrite.
    fold (frame_path output_dir i). rewrite parent_prefix_frame_path.
    fold (dir_exists w output_dir). rewrite Hok, frames_written_cons.
    destruct ok.
    + destruct (IH (i + 1)%N
                  (add_event (Wrote (frame_path output_dir i) f)
                     (set_files (store (frame_path output_dir i)
                                   (w_encode w f) (w_files w)) w)) true Hok)
        as (w' & R & E & D & L & T & F).
      exists w'. rewrite R. cbn in L, T, F. cbn [List.length].
      split; [f_equal; lia|].
      split; [exact E|]. split; [exact D|]. split; [exact L|].
      split; [rewrite T, <- app_assoc; reflexivity | exact F].
    + destruct (IH (i + 1)%N (add_event (Wrote (frame_path output_dir i) f) w)
                  false Hok)
        as (w' & R & E & D & L & T & F).
      exists w'. rewrite R. cbn in L, T, F. cbn [List.length].
      split; [f_equal; lia|].
      split; [exact E|]. split; [exact D|]. split; [exact L|].
      split; [rewrite T, <- app_assoc; reflexivity | exact F].
  - exists w. cbn. rewrite N.add_0_r, app_nil_r. repeat split. now destruct ok.
Qed.

Lemma frames_stored_keeps (p : string) (l : list frame) : forall i fs,
  lookup p fs <> None -> lookup p (frames_stored encode output_dir i l fs) <> None.
Proof.
  unfold frames_stored. induction l as [|f l IH]; intros i fs H; simpl; [assumption|].
  apply IH. now apply lookup_store_is_some.
Qed.

Lemma frames_stored_other (p : string) (l : list frame) : forall i fs,
  ~ In p (map (frame_path output_dir) (indices i (List.length l))) ->
  lookup p (frames_stored encode output_dir i l fs) = lookup p fs.
Proof.
  unfold frames_stored. induction l as [|f l IH]; intros i fs H; simpl; [reflexivity|].
  simpl in H. rewrite IH by tauto.
  apply lookup_store_neq. intros ->. tauto.
Qed.

(** Every frame written is on disk under its own number, with the encoding
    of that frame. *)
Lemma frames_stored_lookup (l : list frame) : forall i fs k f,
  In (k, f) (numbered i l) ->
  lookup (frame_path output_dir k) (frames_stored encode output_dir i l fs)
    = Some (encode f).
Proof.
  induction l as [|f0 l IH]; intros i fs k f H; simpl in H; [tauto|].
  destruct H as [H|H].
  - injection H as <- <-.
    change (frames_stored encode output_dir i (f0 :: l) fs)
      with (frames_stored encode output_dir (i + 1) l
              (store (frame_path output_dir i) (encode f0) fs)).
    rewrite frames_stored_other.
    + apply lookup_store_eq.
    + rewrite in_map_iff. intros (j & E & Hj).
      apply frame_path_inj in E. apply in_indices in Hj. lia.
  - change (frames_stored encode output_dir i (f0 :: l) fs)
      with (frames_stored encode output_dir (i + 1) l
              (store (frame_path output_dir i) (encode f0) fs)).
    now apply IH.
Qed.

End FrameLoop.

(** ** One entry: [convert_from_tar] *)

(** Whenever the member is in the archive, the call returns [None] and its
    whole effect is: the log gains the open error exactly when the decoder
    cannot open the staged file; the trace gains staging, capture, one write
    per leading frame, release and removal; the file store holds the frames
    and no longer the staged file. *)
Lemma frames_written_keeps (ok : bool) (encode : frame -> bytes)
    (output_dir p : string) (l : list frame) (i : N) (fs : list (string * bytes)) :
  lookup p fs <> None -> lookup p (frames_written ok encode output_dir i l fs) <> None.
Proof. destruct ok; [apply frames_stored_keeps | trivial]. Qed.

Lemma convert_from_tar_spec (tar_file : TarArchiveReader)
    (video_name output_dir tmp_dir : string) (w : world) (c : bytes) :
  lookup video_name (r_members tar_file) = Some c ->
  exists w',
    convert_from_tar tar_file video_name output_dir tmp_dir w = Return VNone w' /\
    same_env w w' /\ same_dirs_out w w' /\
    w_log w' = w_log w ++ match w_decode w c with
                          | Some _ => []
                          | None => [open_error]
                          end /\
    w_trace w' = w_trace w ++
                 [Staged (r_path tar_file) video_name (Py.os_path_join tmp_dir video_name);
                  Captured (Py.os_path_join tmp_dir video_name)] ++
                 written output_dir 0 (decoded_frames w c) ++
                 [Released; Removed (Py.os_path_join tmp_dir video_name)] /\
    w_files w' = delete (Py.os_path_join tmp_dir video_name)
                   (frames_written (dir_exists w output_dir) (w_encode w) output_dir 0
                      (decoded_frames w c)
                      (store (Py.os_path_join tmp_dir video_name) c (w_files w))).
Proof.
  intros Hm. set (p := Py.os_path_join tmp_dir video_name).
  unfold convert_from_tar. fold p.
  unfold bind at 1. unfold extract_file. rewrite Hm. fold p.
  unfold bind at 1. unfold cv2_VideoCapture.
  cbn [w_files add_event set_files w_decode].
  rewrite lookup_store_eq. unfold decoded_frames.
  destruct (w_decode w c) as [reads|] eqn:Hd.
  - cbn [cap_opened cap_pending negb].
    unfold bind at 1. unfold ret at 1. unfold bind at 1.
    match goal with
    | |- context [read_loop output_dir reads 0%N ?w1] =>
        destruct (read_loop_spec output_dir reads 0%N w1 (dir_exists w output_dir)
                    eq_refl)
          as (w2 & R & E & D & L & T & F)
    end.
    rewrite R. unfold bind at 1. unfold video_release. unfold bind at 1.
    unfold os_remove. cbn [w_files add_event set_files].
    cbn in L, T, F.
    destruct (lookup p (w_files w2)) as [c'|] eqn:Hl.
    + eexists. split; [reflexivity|].
      cbn. destruct E as (E1 & E2 & E3 & E4), D as (D1 & D2). cbn in *.
      repeat split; try assumption.
      * now rewrite L, app_nil_r.
      * rewrite T. rewrite <- !app_assoc. reflexivity.
      * now rewrite F.
    + exfalso. rewrite F in Hl. revert Hl. apply frames_written_keeps.
      rewrite lookup_store_eq. discriminate.
  - cbn [cap_opened cap_pending negb].
    unfold bind at 1. unfold logger_error at 1. unfold bind at 1. unfold ret at 1.
    unfold bind at 1. unfold video_release. unfold bind at 1.
    unfold os_remove. cbn [w_files add_event set_files add_log].
    rewrite lookup_store_eq.
    eexists. split; [reflexivity|].
    unfold frames_written. destruct (dir_exists w output_dir);
      cbn; repeat split; rewrite <- !app_assoc; reflexivity.
Qed.

(** With the output directory in place the frames are stored. *)
Lemma convert_from_tar_spec_dir (tar_file : TarArchiveReader)
    (video_name output_dir tmp_dir : string) (w : world) (c : bytes) :
  lookup video_name (r_members tar_file) = Some c ->
  dir_exists w output_dir = true ->
  exists w',
    convert_from_tar tar_file video_name output_dir tmp_dir w = Return VNone w' /\
    same_env w w' /\ same_dirs_out w w' /\
    w_log w' = w_log w ++ match w_decode w c with
                          | Some _ => []
                          | None => [open_error]
                          end /\
    w_trace w' = w_trace w ++
                 [Staged (r_path tar_file) video_name (Py.os_path_join tmp_dir video_name);
                  Captured (Py.os_path_join tmp_dir video_name)] ++
                 written output_dir 0 (decoded_frames w c) ++
                 [Released; Removed (Py.os_path_join tmp_dir video_name)] /\
    w_files w' = delete (Py.os_path_join tmp_dir video_name)
                   (frames_stored (w_encode w) output_dir 0 (decoded_frames w c)
                      (store (Py.os_path_join tmp_dir video_name) c (w_files w))).
Proof.
  intros Hm Hd.
  destruct (convert_from_tar_spec tar_file video_name output_dir tmp_dir w c Hm)
    as (w' & R & E & D & L & T & F).
  rewrite Hd in F. exists w'. repeat split; try assumption; apply E || apply D.
Qed.

(** ** Projections of the trace of one entry *)

Lemma count_app (p : event -> bool) (a b : list event) :
  count p (a ++ b) = count p a + count p b.
Proof. unfold count. now rewrite filter_app, length_app. Qed.

Lemma count_written (p : event -> bool) (output_dir : string) (l : list frame) :
  (forall q f, p (Wrote q f) = false) ->
  forall i, count p (written output_dir i l) = 0.
Proof.
  intros H. unfold count, written.
  induction l as [|f l IH]; intros i; simpl; [reflexivity|].
  rewrite H. apply IH.
Qed.

Lemma staged_paths_app (a b : list event) :
  staged_paths (a ++ b) = staged_paths a ++ staged_paths b.
Proof. unfold staged_paths. apply flat_map_app. Qed.

Lemma staged_paths_written (output_dir : string) (l : list frame) : forall i,
  staged_paths (written output_dir i l) = [].
Proof.
  unfold written, staged_paths.
  induction l as [|f l IH]; intros i; simpl; [reflexivity | apply IH].
Qed.

Lemma leading_frames_stop (fs : list frame) (rest : list (option frame)) :
  stops_here rest -> leading_frames (map Some fs ++ rest) = fs.
Proof.
  intros H. induction fs as [|f fs IH]; simpl.
  - destruct rest as [|[x|] rest]; simpl in *; tauto.
  - now rewrite IH.
Qed.

Lemma in_numbered_nth (l : list frame) : forall i k f,
  In (k, f) (numbered i l) <->
  (i <= k)%N /\ nth_error l (N.to_nat (k - i)) = Some f.
Proof.
  induction l as [|f0 l IH]; intros i k f; simpl.
  - split; [tauto|]. intros [_ H]. now destruct (N.to_nat (k - i)).
  - rewrite IH. split.
    + intros [H|[H1 H2]].
      * injection H as <- <-. rewrite N.sub_diag. simpl. split; [lia | reflexivity].
      * split; [lia|].
        replace (N.to_nat (k - i)) with (S (N.to_nat (k - (i + 1)))) by lia.
        exact H2.
    + intros [H1 H2]. destruct (N.eq_dec k i) as [->|Hne].
      * left. rewrite N.sub_diag in H2. simpl in H2. now injection H2 as ->.
      * right. split; [lia|].
        replace (N.to_nat (k - i)) with (S (N.to_nat (k - (i + 1)))) in H2 by lia.
        exact H2.
Qed.

Lemma length_zfill_8 (k : N) :
  (k < 10 ^ 8)%N -> String.length (Py.zfill 8 (Py.str k)) = 8.
Proof.
  intros H. pose proof (length_frame_filename k H) as L.
  unfold Py.frame_filename in L. rewrite length_append in L. simpl in L. lia.
Qed.

(** ** Frame extraction *)




(** C2 does not hold on every path: when staging fails the exception leaves
    [convert_from_tar] at once, and neither [video.release()] nor
    [os.remove] is reached.  Here the archive has no member of that name. *)
Lemma cleanup_skipped_when_staging_fails :
  let o := convert_from_tar (toy_reader "videos.tar") "nope.mp4" "out" scratch toy_world in
  result o = inr (KeyError "nope.mp4") /\
  count is_released (w_trace (final_world o)) = 0 /\
  count (is_removed (Py.os_path_join scratch "nope.mp4")) (w_trace (final_world o)) = 0.
Proof. vm_compute. repeat split. Qed.

(** C2, amended.  Whenever staging succeeds, and whether or not the decoder
    can open the staged video, [convert_from_tar] returns normally, releases
    the decoder exactly once, removes the staged file exactly once, and leaves
    no file at [tmp_dir/video_name]. *)
Theorem convert_from_tar_cleans_up
    (tar_file : TarArchiveReader) (video_name output_dir tmp_dir : string)
    (w : world) (c : bytes) :
  lookup video_name (r_members tar_file) = Some c ->
  exists w' evs,
    convert_from_tar tar_file video_name output_dir tmp_dir w = Return VNone w' /\
    w_trace w' = w_trace w ++ evs /\
    count is_released evs = 1 /\
    count (is_removed (Py.os_path_join tmp_dir video_name)) evs = 1 /\
    lookup (Py.os_path_join tmp_dir video_name) (w_files w') = None.
Proof.
  intros Hm.
  destruct (convert_from_tar_spec tar_file video_name output_dir tmp_dir w c Hm)
    as (w' & R & E & D & L & T & F).
  exists w'. eexists. split; [exact R|]. split; [exact T|].
  rewrite !count_app, !count_written by reflexivity.
  split; [reflexivity|]. split.
  - unfold count. simpl. now rewrite String.eqb_refl.
  - rewrite F. now autorewrite with assoc.
Qed.

Lemma convert_from_tar_cleans_up_witness :
  exists w' evs,
    convert_from_tar (toy_reader "mixed.tar") "bad.mp4" "out" scratch toy_world
      = Return VNone w' /\
    w_trace w' = w_trace toy_world ++ evs /\
    count is_released evs = 1 /\
    count (is_removed (Py.os_path_join scratch "bad.mp4")) evs = 1 /\
    lookup (Py.os_path_join scratch "bad.mp4") (w_files w') = None.
Proof.
  exact (convert_from_tar_cleans_up (toy_reader "mixed.tar") "bad.mp4" "out" scratch
           toy_world "garbage" eq_refl).
Defined.

(** C4 does not hold: two jobs on distinct archives that both contain a
    member [clip1.mp4] stage it at the same path under a shared scratch
    root. *)
Lemma staging_path_shared_across_archives :
  "videos.tar" <> "other.tar" /\
  In (Staged "videos.tar" "clip1.mp4" "/tmp/shift-dataset/clip1.mp4")
     (w_trace (final_world (convert_to_folder "videos.tar" scratch false toy_world))) /\
  In (Staged "other.tar" "clip1.mp4" "/tmp/shift-dataset/clip1.mp4")
     (w_trace (final_world (convert_to_folder "other.tar" scratch false toy_world))).
Proof.
  split; [discriminate|]. split; vm_compute; auto.
Qed.

(** C4, amended.  The staging path is [os.path.join(tmp_dir, video_name)]:
    it is computed from the scratch root and the entry name alone, whatever
    the archive; under one scratch root, two entries with relative names are
    staged at the same path exactly when they have the same name. *)
Theorem staging_path_keyed_by_name_only
    (r1 r2 : TarArchiveReader) (n1 n2 out1 out2 tmp_dir : string)
    (w1 w2 : world) (c1 c2 : bytes) :
  lookup n1 (r_members r1) = Some c1 ->
  lookup n2 (r_members r2) = Some c2 ->
  Py.startswith n1 "/" = false ->
  Py.startswith n2 "/" = false ->
  exists p1 p2,
    staged_paths (w_trace (final_world (convert_from_tar r1 n1 out1 tmp_dir w1)))
      = staged_paths (w_trace w1) ++ [p1] /\
    staged_paths (w_trace (final_world (convert_from_tar r2 n2 out2 tmp_dir w2)))
      = staged_paths (w_trace w2) ++ [p2] /\
    p1 = Py.os_path_join tmp_dir n1 /\
    p2 = Py.os_path_join tmp_dir n2 /\
    (p1 = p2 <-> n1 = n2).
Proof.
  intros H1 H2 R1 R2.
  destruct (convert_from_tar_spec r1 n1 out1 tmp_dir w1 c1 H1)
    as (w1' & E1 & _ & _ & _ & T1 & _).
  destruct (convert_from_tar_spec r2 n2 out2 tmp_dir w2 c2 H2)
    as (w2' & E2 & _ & _ & _ & T2 & _).
  exists (Py.os_path_join tmp_dir n1), (Py.os_path_join tmp_dir n2).
  rewrite E1, E2. cbn [final_world]. rewrite T1, T2.
  rewrite !staged_paths_app, !staged_paths_written. cbn.
  repeat split; try reflexivity.
  - now apply os_path_join_inj.
  - now intros ->.
Qed.

Lemma staging_path_keyed_by_name_only_witness :
  exists p1 p2,
    staged_paths (w_trace (final_world
      (convert_from_tar (toy_reader "videos.tar") "clip1.mp4" "a" scratch toy_world)))
      = staged_paths (w_trace toy_world) ++ [p1] /\
    staged_paths (w_trace (final_world
      (convert_from_tar (toy_reader "other.tar") "clip1.mp4" "b" scratch toy_world)))
      = staged_paths (w_trace toy_world) ++ [p2] /\
    p1 = Py.os_path_join scratch "clip1.mp4" /\
    p2 = Py.os_path_join scratch "clip1.mp4" /\
    (p1 = p2 <-> "clip1.mp4" = "clip1.mp4").
Proof.
  exact (staging_path_keyed_by_name_only (toy_reader "videos.tar") (toy_reader "other.tar")
           "clip1.mp4" "clip1.mp4" "a" "b" scratch toy_world toy_world "V:abc" "V:xy"
           eq_refl eq_refl eq_refl eq_refl).
Defined.

(** ** One archive: the two converters *)

Lemma same_env_refl (w : world) : same_env w w.
Proof. repeat split. Qed.

Lemma same_env_trans (a b c : world) : same_env a b -> same_env b c -> same_env a c.
Proof.
  unfold same_env. intros (A1 & A2 & A3 & A4) (B1 & B2 & B3 & B4).
  repeat split; congruence.
Qed.

(** Closes a [same_env] goal from the [same_env] facts at hand; the setters
    of the mutable fields are seen through by computation. *)
Ltac env :=
  first
    [ apply same_env_refl
    | eassumption
    | eapply same_env_trans; eassumption
    | unfold same_env in *; cbn [w_archives w_glob w_decode w_encode
                                   set_files set_dirs set_out add_log add_event] in *;
      intuition congruence ].

Lemma staged_members_app (a b : list event) :
  staged_members (a ++ b) = staged_members a ++ staged_members b.
Proof. unfold staged_members. apply flat_map_app. Qed.

Lemma staged_members_written (output_dir : string) (l : list frame) : forall i,
  staged_members (written output_dir i l) = [].
Proof.
  unfold written, staged_members.
  induction l as [|f l IH]; intros i; simpl; [reflexivity | apply IH].
Qed.

Lemma os_makedirs_spec (path : string) (w : world) :
  exists w0,
    os_makedirs path w = Return tt w0 /\ same_env w w0 /\
    existsb (String.eqb path) (w_dirs w0) = true /\
    w_out w0 = w_out w /\ w_files w0 = w_files w /\
    w_log w0 = w_log w /\ w_trace w0 = w_trace w.
Proof.
  unfold os_makedirs. destruct (existsb (String.eqb path) (w_dirs w)) eqn:E.
  - exists w. repeat split. exact E.
  - eexists. split; [reflexivity|]. cbn. repeat split.
    rewrite existsb_app. simpl. now rewrite String.eqb_refl, orb_true_r.
Qed.

(** The events of one entry, as far as staging goes. *)
Lemma convert_from_tar_stages (tar_file : TarArchiveReader)
    (video_name output_dir tmp_dir : string) (w : world) :
  lookup video_name (r_members tar_file) <> None ->
  exists w' evs,
    convert_from_tar tar_file video_name output_dir tmp_dir w = Return VNone w' /\
    same_env w w' /\ same_dirs_out w w' /\
    w_trace w' = w_trace w ++ evs /\ staged_members evs = [video_name].
Proof.
  intros H. destruct (lookup video_name (r_members tar_file)) as [c|] eqn:Hm; [|congruence].
  destruct (convert_from_tar_spec tar_file video_name output_dir tmp_dir w c Hm)
    as (w' & R & E & D & L & T & F).
  exists w'. eexists. split; [exact R|]. split; [exact E|]. split; [exact D|].
  split; [exact T|].
  now rewrite !staged_members_app, staged_members_written.
Qed.

Section OneArchive.

Variables tar_filepath tmp_dir : string.
Variable tar_file : TarArchiveReader.

Lemma folder_body_spec (f : string) (w : world) :
  (is_mp4 f = true -> lookup f (r_members tar_file) <> None) ->
  exists w1 evs,
    folder_body tar_filepath tmp_dir tar_file f w = Return tt w1 /\
    same_env w w1 /\ w_out w1 = w_out w /\
    w_trace w1 = w_trace w ++ evs /\
    staged_members evs = if is_mp4 f then [f] else [].
Proof.
  intros Hm. unfold folder_body, is_mp4 in *.
  destruct (Py.endswith f ".mp4").
  - set (output_dir := Py.os_path_join _ _).
    destruct (os_makedirs_spec output_dir w) as (w0 & R0 & E0 & _ & O0 & _ & _ & T0).
    destruct (convert_from_tar_stages tar_file f output_dir tmp_dir w0 (Hm eq_refl))
      as (w1 & evs & R1 & E1 & (_ & O1) & T1 & S1).
    exists w1, evs. unfold bind. rewrite R0, R1.
    split; [reflexivity|]. split; [env|].
    split; [congruence|]. split; [congruence | exact S1].
  - exists w, []. repeat split. now rewrite app_nil_r.
Qed.

Lemma tar_body_spec (tar_writer f : string) (w : world) (t : tar_out) :
  (is_mp4 f = true -> lookup f (r_members tar_file) <> None) ->
  lookup tar_writer (w_out w) = Some t ->
  exists w1 t1 evs,
    tar_body tar_filepath tmp_dir tar_file tar_writer f w = Return tt w1 /\
    same_env w w1 /\
    lookup tar_writer (w_out w1) = Some t1 /\
    finalized t1 = finalized t /\
    map fst (entries t1) = map fst (entries t) ++ (if is_mp4 f then [arcname_of f] else []) /\
    w_trace w1 = w_trace w ++ evs /\
    staged_members evs = if is_mp4 f then [f] else [].
Proof.
  intros Hm Hw. unfold tar_body, is_mp4 in *.
  destruct (Py.endswith f ".mp4").
  - set (output_dir := Py.os_path_join _ _).
    destruct (os_makedirs_spec output_dir w) as (w0 & R0 & E0 & X0 & O0 & _ & _ & T0).
    destruct (convert_from_tar_stages tar_file f output_dir tmp_dir w0 (Hm eq_refl))
      as (w1 & evs & R1 & E1 & (D1 & O1) & T1 & S1).
    unfold bind. rewrite R0, R1. unfold add_file.
    rewrite O1, O0, Hw. unfold shutil_rmtree. cbn [w_dirs set_out].
    rewrite D1, X0.
    eexists. eexists. exists evs. split; [reflexivity|].
    cbn [w_out set_dirs set_files set_out w_trace].
    split; [env|].
    split; [apply lookup_store_eq|]. cbn [entries finalized].
    split; [reflexivity|]. split; [now rewrite map_app|].
    split; [congruence | exact S1].
  - exists w, t, []. split; [reflexivity|]. split; [env|].
    split; [exact Hw|]. split; [reflexivity|].
    rewrite !app_nil_r. repeat split.
Qed.

Lemma folder_loop_spec (l : list string) : forall w,
  (forall f, In f l -> lookup f (r_members tar_file) <> None) ->
  exists w1 evs,
    for_each l (folder_body tar_filepath tmp_dir tar_file) w = Return tt w1 /\
    same_env w w1 /\ w_out w1 = w_out w /\
    w_trace w1 = w_trace w ++ evs /\
    staged_members evs = filter is_mp4 l.
Proof.
  induction l as [|f l IH]; intros w Hl.
  - exists w, []. repeat split. now rewrite app_nil_r.
  - destruct (folder_body_spec f w)
      as (w1 & e1 & R1 & E1 & O1 & T1 & S1).
    { intros _. apply Hl. now left. }
    destruct (IH w1) as (w2 & e2 & R2 & E2 & O2 & T2 & S2).
    { intros g Hg. apply Hl. now right. }
    exists w2, (e1 ++ e2). cbn [for_each]. unfold bind. rewrite R1, R2.
    split; [reflexivity|]. split; [env|].
    split; [congruence|]. split; [rewrite T2, T1; symmetry; apply app_assoc|].
    rewrite staged_members_app, S1, S2. cbn [filter].
    now destruct (is_mp4 f).
Qed.

Lemma tar_loop_spec (tar_writer : string) (l : list string) :
  forall (w : world) (t : tar_out),
  (forall f, In f l -> lookup f (r_members tar_file) <> None) ->
  lookup tar_writer (w_out w) = Some t ->
  exists w1 t1 evs,
    for_each l (tar_body tar_filepath tmp_dir tar_file tar_writer) w = Return tt w1 /\
    same_env w w1 /\
    lookup tar_writer (w_out w1) = Some t1 /\
    finalized t1 = finalized t /\
    map fst (entries t1) = map fst (entries t) ++ map arcname_of (filter is_mp4 l) /\
    w_trace w1 = w_trace w ++ evs /\
    staged_members evs = filter is_mp4 l.
Proof.
  induction l as [|f l IH]; intros w t Hl Hw.
  - exists w, t, []. split; [reflexivity|]. split; [env|].
    split; [exact Hw|]. split; [reflexivity|]. rewrite !app_nil_r. repeat split.
  - destruct (tar_body_spec tar_writer f w t)
      as (w1 & t1 & e1 & R1 & E1 & W1 & F1 & N1 & T1 & S1); [|exact Hw|].
    { intros _. apply Hl. now left. }
    destruct (IH w1 t1) as (w2 & t2 & e2 & R2 & E2 & W2 & F2 & N2 & T2 & S2);
      [|exact W1|].
    { intros g Hg. apply Hl. now right. }
    exists w2, t2, (e1 ++ e2). cbn [for_each]. unfold bind. rewrite R1, R2.
    split; [reflexivity|]. split; [env|].
    split; [exact W2|]. split; [congruence|].
    split.
    { rewrite N2, N1, <- app_assoc. f_equal. cbn [filter].
      now destruct (is_mp4 f). }
    split; [rewrite T2, T1; symmetry; apply app_assoc|].
    rewrite staged_members_app, S1, S2. cbn [filter].
    now destruct (is_mp4 f).
Qed.

End OneArchive.

Lemma file_list_progress (show_progress_bar : bool) (l : list string) :
  (if show_progress_bar then tqdm l else l) = l.
Proof. now destruct show_progress_bar. Qed.

Lemma convert_to_folder_spec (tar_filepath tmp_dir : string) (show_progress_bar : bool)
    (w : world) (ms : list (string * bytes)) :
  w_archives w tar_filepath = Some ms ->
  exists w' evs,
    convert_to_folder tar_filepath tmp_dir show_progress_bar w = Return VNone w' /\
    same_env w w' /\ w_out w' = w_out w /\
    w_trace w' = w_trace w ++ evs /\
    staged_members evs = filter is_mp4 (map fst ms).
Proof.
  intros Ha. unfold convert_to_folder, try_except, TarArchiveReader_open.
  rewrite Ha. cbv zeta. rewrite file_list_progress. unfold get_list. cbn [r_members].
  destruct (folder_loop_spec tar_filepath tmp_dir
              {| r_path := tar_filepath; r_members := ms |} (map fst ms) w)
    as (w1 & evs & R & E & O & T & S).
  { intros f Hf. now apply lookup_in. }
  exists w1, evs. unfold bind. rewrite R. repeat split; try assumption; apply E.
Qed.

Lemma convert_to_tar_spec (tar_filepath tmp_dir : string) (show_progress_bar : bool)
    (w : world) (ms : list (string * bytes)) :
  w_archives w tar_filepath = Some ms ->
  exists w' es evs,
    convert_to_tar tar_filepath tmp_dir show_progress_bar w = Return VNone w' /\
    same_env w w' /\
    lookup (Py.replace tar_filepath ".tar" "_decompressed.tar") (w_out w')
      = Some {| entries := es; finalized := true |} /\
    map fst es = map arcname_of (filter is_mp4 (map fst ms)) /\
    w_trace w' = w_trace w ++ evs /\
    staged_members evs = filter is_mp4 (map fst ms).
Proof.
  intros Ha. unfold convert_to_tar, try_except, TarArchiveReader_open.
  rewrite Ha. unfold bind at 1. unfold TarArchiveWriter_create.
  cbv zeta. rewrite file_list_progress. unfold get_list. cbn [r_members].
  set (out := Py.replace tar_filepath ".tar" "_decompressed.tar").
  set (w0 := set_out (store out {| entries := []; finalized := false |} (w_out w)) w).
  destruct (tar_loop_spec tar_filepath tmp_dir
              {| r_path := tar_filepath; r_members := ms |} out (map fst ms) w0
              {| entries := []; finalized := false |})
    as (w1 & t1 & evs & R & E & W & F & N & T & S).
  { intros f Hf. now apply lookup_in. }
  { apply lookup_store_eq. }
  unfold bind. rewrite R. unfold reader_close, ret, writer_close. rewrite W.
  eexists. exists (entries t1), evs. split; [reflexivity|].
  cbn [w_out set_out w_trace].
  split; [env|].
  split; [apply lookup_store_eq|]. split; [exact N|]. split; assumption.
Qed.



(** C8 does not hold: [convert_from_tar] has no [return] statement, so what
    it returns is [None], here for a video of three frames. *)
Lemma convert_from_tar_returns_none :
  let o := convert_from_tar (toy_reader "videos.tar") "clip1.mp4" "out" scratch toy_world in
  result o = inl VNone /\
  List.length (wrote_paths (w_trace (final_world o))) = 3 /\
  VNone <> VInt 3.
Proof. vm_compute. repeat split. discriminate. Qed.

(** C8, amended.  [convert_from_tar] returns [None]; the number of image
    writes it issues equals the number of frames the decoder delivers before
    its first unsuccessful read, and converting the same video a second time
    issues the same number of writes. *)
Theorem convert_from_tar_frame_count
    (tar_file : TarArchiveReader) (video_name output_dir tmp_dir : string)
    (w : world) (c : bytes) :
  lookup video_name (r_members tar_file) = Some c ->
  exists w1 evs1 w2 evs2,
    convert_from_tar tar_file video_name output_dir tmp_dir w = Return VNone w1 /\
    w_trace w1 = w_trace w ++ evs1 /\
    List.length (wrote_paths evs1) = List.length (decoded_frames w c) /\
    convert_from_tar tar_file video_name output_dir tmp_dir w1 = Return VNone w2 /\
    w_trace w2 = w_trace w1 ++ evs2 /\
    List.length (wrote_paths evs2) = List.length (wrote_paths evs1).
Proof.
  intros Hm.
  destruct (convert_from_tar_spec tar_file video_name output_dir tmp_dir w c Hm)
    as (w1 & R1 & E1 & _ & _ & T1 & _).
  destruct (convert_from_tar_spec tar_file video_name output_dir tmp_dir w1 c Hm)
    as (w2 & R2 & _ & _ & _ & T2 & _).
  assert (Hd : decoded_frames w1 c = decoded_frames w c).
  { unfold decoded_frames. destruct E1 as (_ & _ & -> & _). reflexivity. }
  rewrite Hd in T2.
  assert (P : forall p l,
             List.length (wrote_paths
               ([Staged (r_path tar_file) video_name p; Captured p] ++
                written output_dir 0 l ++ [Released; Removed p])) = List.length l).
  { intros p l. rewrite !wrote_paths_app, wrote_paths_written. simpl.
    rewrite app_nil_r, length_map, <- map_fst_numbered, length_map.
    apply length_numbered. }
  exists w1. eexists. exists w2. eexists.
  split; [exact R1|]. split; [exact T1|]. split; [apply P|].
  split; [exact R2|]. split; [exact T2|]. now rewrite !P.
Qed.

Lemma convert_from_tar_frame_count_witness :
  exists w1 evs1 w2 evs2,
    convert_from_tar (toy_reader "cut.tar") "clip3.mp4" "out" scratch toy_world
      = Return VNone w1 /\
    w_trace w1 = w_trace toy_world ++ evs1 /\
    List.length (wrote_paths evs1) = 2 /\
    convert_from_tar (toy_reader "cut.tar") "clip3.mp4" "out" scratch w1
      = Return VNone w2 /\
    w_trace w2 = w_trace w1 ++ evs2 /\
    List.length (wrote_paths evs2) = List.length (wrote_paths evs1).
Proof.
  exact (convert_from_tar_frame_count (toy_reader "cut.tar") "clip3.mp4" "out" scratch
           toy_world "V:ab!c" eq_refl).
Defined.

(** ** Members that are not videos *)

Lemma for_each_skip {A} (body : A -> io unit) (x : A) (l1 l2 : list A) :
  (forall w, body x w = Return tt w) ->
  forall w, for_each (l1 ++ x :: l2) body w = for_each (l1 ++ l2) body w.
Proof.
  intros Hx. induction l1 as [|y l1 IH]; intros w; cbn [app for_each]; unfold bind.
  - now rewrite Hx.
  - destruct (body y w) as [[] w1|e w1]; [apply IH | reflexivity].
Qed.

(** C9.  A member whose name does not end in [.mp4] is skipped by both
    converters: its turn in the loop returns at once and leaves the world as
    it is (nothing staged, decoded, written, logged or raised), so the job
    runs exactly as if the archive listing did not contain that member. *)
Theorem non_video_member_is_skipped
    (tar_filepath tmp_dir tar_writer f : string) (tar_file : TarArchiveReader)
    (before after : list string) (w : world) :
  Py.endswith f ".mp4" = false ->
  tar_body tar_filepath tmp_dir tar_file tar_writer f w = Return tt w /\
  folder_body tar_filepath tmp_dir tar_file f w = Return tt w /\
  for_each (before ++ f :: after) (tar_body tar_filepath tmp_dir tar_file tar_writer) w
    = for_each (before ++ after) (tar_body tar_filepath tmp_dir tar_file tar_writer) w /\
  for_each (before ++ f :: after) (folder_body tar_filepath tmp_dir tar_file) w
    = for_each (before ++ after) (folder_body tar_filepath tmp_dir tar_file) w.
Proof.
  intros H.
  assert (Ht : forall w0, tar_body tar_filepath tmp_dir tar_file tar_writer f w0
                          = Return tt w0).
  { intros w0. unfold tar_body. now rewrite H. }
  assert (Hf : forall w0, folder_body tar_filepath tmp_dir tar_file f w0 = Return tt w0).
  { intros w0. unfold folder_body. now rewrite H. }
  split; [apply Ht|]. split; [apply Hf|].
  split; apply for_each_skip; assumption.
Qed.

Lemma non_video_member_is_skipped_witness :
  tar_body "videos.tar" scratch (toy_reader "videos.tar") "videos_decompressed.tar"
    "readme.txt" toy_world = Return tt toy_world /\
  folder_body "videos.tar" scratch (toy_reader "videos.tar") "readme.txt" toy_world
    = Return tt toy_world /\
  for_each (["clip1.mp4"] ++ "readme.txt" :: [])
    (tar_body "videos.tar" scratch (toy_reader "videos.tar") "videos_decompressed.tar")
    toy_world
    = for_each (["clip1.mp4"] ++ [])
        (tar_body "videos.tar" scratch (toy_reader "videos.tar") "videos_decompressed.tar")
        toy_world /\
  for_each (["clip1.mp4"] ++ "readme.txt" :: [])
    (folder_body "videos.tar" scratch (toy_reader "videos.tar")) toy_world
    = for_each (["clip1.mp4"] ++ [])
        (folder_body "videos.tar" scratch (toy_reader "videos.tar")) toy_world.
Proof.
  exact (non_video_member_is_skipped "videos.tar" scratch "videos_decompressed.tar"
           "readme.txt" (toy_reader "videos.tar") ["clip1.mp4"] [] toy_world eq_refl).
Defined.

Lemma for_each_no_video (body : string -> io unit) (l : list string) :
  (forall f w, is_mp4 f = false -> body f w = Return tt w) ->
  filter is_mp4 l = [] ->
  forall w, for_each l body w = Return tt w.
Proof.
  intros Hb. induction l as [|f l IH]; intros Hl w; [reflexivity|].
  cbn [filter] in Hl. destruct (is_mp4 f) eqn:E; [discriminate|].
  cbn [for_each]. unfold bind. rewrite Hb by assumption. now apply IH.
Qed.

(** C10 does not hold for every path: [str.replace] rewrites every
    occurrence of [.tar].  For the video-less archive [v.tar.d/docs.tar] the
    empty output archive is not [v.tar.d/docs_decompressed.tar]; it lands at
    [v_decompressed.tar.d/docs_decompressed.tar]. *)
Lemma empty_output_archive_misnamed :
  let o := convert_to_tar "v.tar.d/docs.tar" scratch false toy_world_nested in
  result o = inl VNone /\
  lookup "v.tar.d/docs_decompressed.tar" (w_out (final_world o)) = None /\
  w_out (final_world o)
    = [("v_decompressed.tar.d/docs_decompressed.tar",
        {| entries := []; finalized := true |})].
Proof. vm_compute. repeat split. Qed.

(** C10, amended.  In tar mode, an archive [stem.tar] in whose path [.tar]
    occurs only as that final suffix, and which opens but lists no member
    ending in [.mp4], still gets its output archive: the converter returns
    normally and leaves a finalized archive with no entry at
    [stem_decompressed.tar]; it touches no other output archive, no file, no
    directory, and neither logs nor stages anything. *)
Theorem empty_output_archive_still_created
    (stem tmp_dir : string) (show_progress_bar : bool)
    (w : world) (ms : list (string * bytes)) :
  Py.occurs ".tar" stem = false ->
  w_archives w (stem ++ ".tar") = Some ms ->
  filter is_mp4 (map fst ms) = [] ->
  exists w',
    convert_to_tar (stem ++ ".tar") tmp_dir show_progress_bar w = Return VNone w' /\
    lookup (stem ++ "_decompressed.tar")%string (w_out w')
      = Some {| entries := []; finalized := true |} /\
    (forall q, q <> (stem ++ "_decompressed.tar")%string ->
               lookup q (w_out w') = lookup q (w_out w)) /\
    w_files w' = w_files w /\ w_dirs w' = w_dirs w /\
    w_log w' = w_log w /\ w_trace w' = w_trace w.
Proof.
  intros Hs Ha Hl. set (out := (stem ++ "_decompressed.tar")%string).
  exists (set_out (store out {| entries := []; finalized := true |}
                     (store out {| entries := []; finalized := false |} (w_out w))) w).
  split.
  - unfold convert_to_tar, try_except, TarArchiveReader_open. rewrite Ha.
    unfold bind at 1. unfold TarArchiveWriter_create. cbv zeta.
    rewrite file_list_progress. unfold get_list. cbn [r_members].
    rewrite replace_tar_suffix by assumption. fold out.
    unfold bind at 1. rewrite for_each_no_video; [| |exact Hl].
    + unfold bind, reader_close, ret, writer_close. cbn [w_out set_out].
      rewrite lookup_store_eq. reflexivity.
    + intros f w0 Hf. unfold tar_body. unfold is_mp4 in Hf. now rewrite Hf.
  - cbn [w_out w_files w_dirs w_log w_trace set_out].
    split; [apply lookup_store_eq|]. split; [|repeat split].
    intros q Hq. now rewrite !lookup_store_neq.
Qed.

Lemma empty_output_archive_still_created_witness :
  exists w',
    convert_to_tar "docs.tar" scratch true toy_world = Return VNone w' /\
    lookup "docs_decompressed.tar" (w_out w')
      = Some {| entries := []; finalized := true |} /\
    (forall q, q <> "docs_decompressed.tar" ->
               lookup q (w_out w') = lookup q (w_out toy_world)) /\
    w_files w' = w_files toy_world /\ w_dirs w' = w_dirs toy_world /\
    w_log w' = w_log toy_world /\ w_trace w' = w_trace toy_world.
Proof.
  exact (empty_output_archive_still_created "docs" scratch true toy_world
           [("readme.txt", "hello"); ("notes.md", "todo")]
           eq_refl eq_refl eq_refl).
Defined.

(** ** The output archive *)

Lemma occurs_dot_cons (c : ascii) (s : string) :
  Py.occurs "." (String c s) = Ascii.eqb c "." || Py.occurs "." s.
Proof. cbn [Py.occurs Py.startswith]. now rewrite andb_true_r, Ascii.eqb_sym. Qed.

Lemma split_dot_0_no_dot (s : string) :
  Py.occurs "." s = false -> Py.split_dot_0 s = s.
Proof.
  induction s as [|c s IH]; intros H; [reflexivity|].
  rewrite occurs_dot_cons in H. apply orb_false_iff in H as [H1 H2].
  cbn [Py.split_dot_0]. rewrite H1. now rewrite IH.
Qed.

(** Where the base name has a single dot, cutting at the first dot and
    cutting at the last one agree. *)
Lemma split_dot_0_before_last_dot (s : string) :
  Py.occurs "." (before_last_dot s) = false ->
  Py.split_dot_0 s = before_last_dot s.
Proof.
  induction s as [|c s IH]; intros H; [reflexivity|].
  cbn [before_last_dot Py.split_dot_0] in *.
  destruct (Py.occurs "." s) eqn:Hs.
  - rewrite occurs_dot_cons in H. apply orb_false_iff in H as [H1 H2].
    rewrite H1. now rewrite IH.
  - destruct (Ascii.eqb c ".") eqn:Hc; [reflexivity|].
    now rewrite split_dot_0_no_dot.
Qed.

(** C6 does not hold for every path and member: [str.replace] rewrites every
    occurrence of [.tar], and the entry name stops at the first dot of the
    base name.  For [v.tar.d/x.tar] holding [a/clip.v2.mp4] nothing is
    written at the sibling [v.tar.d/x_decompressed.tar], and the entry is
    [clip] while the member's stem is [clip.v2]. *)
Lemma output_archive_not_sibling_nor_stem :
  let w' := final_world (convert_to_tar "v.tar.d/x.tar" scratch false toy_world) in
  lookup "v.tar.d/x_decompressed.tar" (w_out w') = None /\
  map fst (w_out w') = ["v_decompressed.tar.d/x_decompressed.tar"] /\
  flat_map (fun a => map fst (entries (snd a))) (w_out w') = ["clip"] /\
  member_stem "a/clip.v2.mp4" = "clip.v2".
Proof. vm_compute. repeat split. Qed.

(** C6, amended.  For an input path [stem.tar] in which [.tar] occurs only as
    that final suffix, tar mode returns normally and leaves a finalized
    archive at [stem_decompressed.tar] with exactly one top-level entry per
    video member, in listing order, each named by the member's base name cut
    at its first dot; that is the member's stem whenever the stem itself
    contains no dot. *)
Theorem convert_to_tar_output_archive
    (stem tmp_dir : string) (show_progress_bar : bool)
    (w : world) (ms : list (string * bytes)) :
  Py.occurs ".tar" stem = false ->
  w_archives w (stem ++ ".tar") = Some ms ->
  exists w' es,
    convert_to_tar (stem ++ ".tar") tmp_dir show_progress_bar w = Return VNone w' /\
    lookup (stem ++ "_decompressed.tar")%string (w_out w')
      = Some {| entries := es; finalized := true |} /\
    map fst es =
      map (fun f => Py.split_dot_0 (Py.basename f)) (filter is_mp4 (map fst ms)) /\
    (forall f, Py.occurs "." (member_stem f) = false ->
               Py.split_dot_0 (Py.basename f) = member_stem f).
Proof.
  intros Hs Ha.
  destruct (convert_to_tar_spec (stem ++ ".tar") tmp_dir show_progress_bar w ms Ha)
    as (w' & es & evs & R & _ & L & N & _).
  rewrite replace_tar_suffix in L by assumption.
  exists w', es. split; [exact R|]. split; [exact L|]. split; [exact N|].
  intros f Hf. now apply split_dot_0_before_last_dot.
Qed.

Lemma convert_to_tar_output_archive_witness :
  exists w' es,
    convert_to_tar "mixed.tar" scratch false toy_world = Return VNone w' /\
    lookup "mixed_decompressed.tar" (w_out w')
      = Some {| entries := es; finalized := true |} /\
    map fst es = ["bad"; "clip2"] /\
    (forall f, Py.occurs "." (member_stem f) = false ->
               Py.split_dot_0 (Py.basename f) = member_stem f).
Proof.
  exact (convert_to_tar_output_archive "mixed" scratch false toy_world
           [("bad.mp4", "garbage"); ("clip2.mp4", "V:ab")] eq_refl eq_refl).
Defined.

(** ** Archives that cannot be opened *)

(** In both converters the [except] clause adds the exception object to a
    string, which raises [TypeError] before [logger.error] is called. *)
Lemma open_failure_raises_type_error (tar_filepath tmp_dir : string)
    (show_progress_bar : bool) (w : world) :
  w_archives w tar_filepath = None ->
  convert_to_tar tar_filepath tmp_dir show_progress_bar w
    = Raise (TypeError "can only concatenate str to str") w /\
  convert_to_folder tar_filepath tmp_dir show_progress_bar w
    = Raise (TypeError "can only concatenate str to str") w.
Proof.
  intros H. unfold convert_to_tar, convert_to_folder, try_except, TarArchiveReader_open.
  rewrite H. split; reflexivity.
Qed.

(** C3, on the code: for an archive that cannot be opened, neither converter
    logs anything or returns; each raises [TypeError], and in a sequential
    run of [main] the archive listed after it is never processed. *)
Theorem open_failure_is_not_logged :
  result (convert_to_tar "missing.tar" scratch false toy_world)
    = inr (TypeError "can only concatenate str to str") /\
  w_log (final_world (convert_to_tar "missing.tar" scratch false toy_world)) = [] /\
  result (convert_to_folder "missing.tar" scratch false toy_world)
    = inr (TypeError "can only concatenate str to str") /\
  w_log (final_world (convert_to_folder "missing.tar" scratch false toy_world)) = [] /\
  let o := main {| files := "*.tar"; mode := folder; jobs := 1; tmp_dir := scratch |}
             toy_world in
  w_glob toy_world "*.tar" = ["missing.tar"; "videos.tar"] /\
  result o = inr (TypeError "can only concatenate str to str") /\
  errors (w_log (final_world o)) = [] /\
  w_trace (final_world o) = [] /\
  w_files (final_world o) = [].
Proof. vm_compute. repeat split. Qed.

(** ** The driver *)




(** ** Further properties of the module

    *** Paths and file names *)

Lemma is_under_frame_path (output_dir : string) (k : N) :
  is_under output_dir (frame_path output_dir k) = true.
Proof.
  unfold is_under, frame_path.
  rewrite os_path_join_relative by apply frame_filename_relative.
  now rewrite strip_prefix_append.
Qed.

Lemma lookup_filter_key {A} (P : string -> bool) (q : string) (l : list (string * A)) :
  lookup q (filter (fun kv => P (fst kv)) l) = if P q then lookup q l else None.
Proof.
  induction l as [|[k v] l IH]; simpl; [now destruct (P q)|].
  destruct (P k) eqn:Pk; simpl.
  - destruct (String.eqb_spec q k) as [->|N]; [now rewrite Pk | exact IH].
  - rewrite IH. destruct (String.eqb_spec q k) as [->|N]; [now rewrite Pk | reflexivity].
Qed.

Lemma lookup_some_in {A} (k : string) (v : A) (l : list (string * A)) :
  lookup k l = Some v -> In (k, v) l.
Proof.
  induction l as [|[k' v'] l IH]; simpl; [discriminate|].
  destruct (String.eqb_spec k k') as [->|N].
  - intros H. injection H as ->. now left.
  - intros H. right. now apply IH.
Qed.

Lemma files_under_in (dir rel : string) (v : bytes) (fs : list (string * bytes)) :
  lookup (Py.dir_prefix dir ++ rel)%string fs = Some v -> In (rel, v) (files_under dir fs).
Proof.
  intros H. apply lookup_some_in in H. unfold files_under.
  apply in_flat_map. exists ((Py.dir_prefix dir ++ rel)%string, v).
  split; [assumption|]. cbn [fst snd]. rewrite strip_prefix_append. now left.
Qed.

Lemma existsb_eqb_in (x : string) (l : list string) :
  existsb (String.eqb x) l = true -> In x l.
Proof.
  rewrite existsb_exists. intros (y & Hy & E). apply String.eqb_eq in E. now subst.
Qed.

(** *** The footprint of one entry *)

Lemma frames_stored_outside (encode : frame -> bytes) (output_dir q : string)
    (l : list frame) (i : N) (fs : list (string * bytes)) :
  is_under output_dir q = false ->
  lookup q (frames_stored encode output_dir i l fs) = lookup q fs.
Proof.
  intros H. apply frames_stored_other. rewrite in_map_iff. intros (k & E & _).
  subst q. now rewrite is_under_frame_path in H.
Qed.

(** X1.  [convert_from_tar] writes frames nowhere but under [output_dir],
    and leaves every file alone that is neither under [output_dir] nor the
    staged path; it changes no output archive. *)
Theorem convert_from_tar_footprint
    (tar_file : TarArchiveReader) (video_name output_dir tmp_dir : string)
    (w : world) (c : bytes) :
  lookup video_name (r_members tar_file) = Some c ->
  exists w' evs,
    convert_from_tar tar_file video_name output_dir tmp_dir w = Return VNone w' /\
    w_trace w' = w_trace w ++ evs /\
    Forall (fun p => is_under output_dir p = true) (wrote_paths evs) /\
    (forall q, q <> Py.os_path_join tmp_dir video_name ->
               is_under output_dir q = false ->
               lookup q (w_files w') = lookup q (w_files w)) /\
    w_out w' = w_out w.
Proof.
  intros Hm.
  destruct (convert_from_tar_spec tar_file video_name output_dir tmp_dir w c Hm)
    as (w' & R & E & (D1 & D2) & L & T & F).
  exists w'. eexists. split; [exact R|]. split; [exact T|]. split; [|split; [|exact D2]].
  - rewrite !wrote_paths_app, wrote_paths_written. simpl. rewrite app_nil_r.
    apply Forall_forall. intros p Hp. apply in_map_iff in Hp as (k & <- & _).
    apply is_under_frame_path.
  - intros q Hq Hu. rewrite F, lookup_delete_neq by assumption.
    unfold frames_written. destruct (dir_exists w output_dir).
    + rewrite frames_stored_outside by assumption. now apply lookup_store_neq.
    + now apply lookup_store_neq.
Qed.

Lemma convert_from_tar_footprint_witness :
  exists w' evs,
    convert_from_tar (toy_reader "videos.tar") "clip1.mp4" "out" scratch toy_world_readable
      = Return VNone w' /\
    w_trace w' = w_trace toy_world_readable ++ evs /\
    Forall (fun p => is_under "out" p = true) (wrote_paths evs) /\
    (forall q, q <> Py.os_path_join scratch "clip1.mp4" ->
               is_under "out" q = false ->
               lookup q (w_files w') = lookup q (w_files toy_world_readable)) /\
    w_out w' = w_out toy_world_readable.
Proof.
  exact (convert_from_tar_footprint (toy_reader "videos.tar") "clip1.mp4" "out" scratch
           toy_world_readable "V:abc" eq_refl).
Defined.

(** *** One entry in folder mode *)

Lemma startswith_mp4_append (name : string) :
  name <> EmptyString ->
  Py.startswith (name ++ ".mp4") ".mp4" = Py.startswith name ".mp4".
Proof.
  intros H.
  destruct name as [|c1 [|c2 [|c3 [|c4 s]]]]; [congruence| | | |];
    cbn [Py.startswith String.append];
    repeat match goal with
           | |- context [Ascii.eqb ?a ?b] =>
               first [ is_var b; destruct (Ascii.eqb a b)
                     | let v := eval vm_compute in (Ascii.eqb a b) in
                       change (Ascii.eqb a b) with v ];
               cbn [andb]
           end; reflexivity.
Qed.

Lemma replace_mp4_suffix (name : string) :
  Py.occurs ".mp4" name = false ->
  Py.replace (name ++ ".mp4") ".mp4" "" = name.
Proof.
  unfold Py.replace. induction name as [|c name IH]; intros H; [reflexivity|].
  cbn [Py.occurs] in H. apply orb_false_iff in H as [H1 H2].
  change (String c name ++ ".mp4")%string with (String c (name ++ ".mp4")).
  cbn [Py.replace_from].
  change (String c (name ++ ".mp4")) with (String c name ++ ".mp4")%string.
  rewrite startswith_mp4_append by discriminate. rewrite H1.
  now rewrite IH.
Qed.



(** *** One entry and one job in tar mode *)

(** The run of the loop body of [convert_to_tar] on a video member. *)
Lemma tar_body_run (tar_filepath tmp_dir tar_writer f : string)
    (tar_file : TarArchiveReader) (w : world) (t : tar_out) (c : bytes) :
  Py.endswith f ".mp4" = true ->
  lookup f (r_members tar_file) = Some c ->
  lookup tar_writer (w_out w) = Some t ->
  let output_dir :=
    Py.os_path_join (Py.replace tar_filepath ".tar" "_tmp") (arcname_of f) in
  let staged :=
    delete (Py.os_path_join tmp_dir f)
      (frames_stored (w_encode w) output_dir 0 (decoded_frames w c)
         (store (Py.os_path_join tmp_dir f) c (w_files w))) in
  exists w1,
    tar_body tar_filepath tmp_dir tar_file tar_writer f w = Return tt w1 /\
    same_env w w1 /\
    w_files w1 = filter (fun kv => negb (is_under output_dir (fst kv))) staged /\
    lookup tar_writer (w_out w1)
      = Some {| entries := entries t ++ [(arcname_of f, files_under output_dir staged)];
                finalized := finalized t |} /\
    ~ In output_dir (w_dirs w1).
Proof.
  intros Hf Hm Hw output_dir staged. unfold tar_body. rewrite Hf. fold output_dir.
  destruct (os_makedirs_spec output_dir w) as (w0 & R0 & E0 & X0 & O0 & F0 & _ & _).
  destruct (convert_from_tar_spec_dir tar_file f output_dir tmp_dir w0 c Hm
              (dir_exists_recorded w0 output_dir X0))
    as (w1 & R1 & E1 & (D1 & O1) & L1 & T1 & F1).
  assert (Hs : w_files w1 = staged).
  { rewrite F1, F0. unfold staged, decoded_frames.
    destruct E0 as (_ & _ & -> & ->). reflexivity. }
  unfold bind. rewrite R0, R1. unfold add_file. rewrite O1, O0, Hw.
  unfold shutil_rmtree. cbn [w_dirs set_out]. rewrite D1, X0.
  eexists. split; [reflexivity|].
  cbn [w_out w_files w_dirs set_dirs set_files set_out].
  split; [env|]. split; [now rewrite Hs|].
  split; [rewrite lookup_store_eq, Hs; reflexivity|].
  intros H. apply filter_In in H as [_ H]. now rewrite String.eqb_refl in H.
Qed.

(** X3.  In tar mode, a video member that the decoder opens is appended to
    the output archive as one entry named [arcname_of f] that holds, for
    every frame [k], the file [frame_filename k] with the encoding of that
    frame; afterwards nothing is left under the temporary directory, the
    directory is gone and so is the staged video. *)
Theorem tar_entry_packs_frames
    (tar_filepath tmp_dir tar_writer f : string) (tar_file : TarArchiveReader)
    (w : world) (t : tar_out) (c : bytes)
    (fs : list frame) (rest : list (option frame)) :
  Py.endswith f ".mp4" = true ->
  lookup f (r_members tar_file) = Some c ->
  lookup tar_writer (w_out w) = Some t ->
  w_decode w c = Some (map Some fs ++ rest) ->
  stops_here rest ->
  let output_dir :=
    Py.os_path_join (Py.replace tar_filepath ".tar" "_tmp") (arcname_of f) in
  exists w1 payload,
    tar_body tar_filepath tmp_dir tar_file tar_writer f w = Return tt w1 /\
    lookup tar_writer (w_out w1)
      = Some {| entries := entries t ++ [(arcname_of f, payload)];
                finalized := finalized t |} /\
    (forall k fr, nth_error fs k = Some fr ->
       In (Py.frame_filename (N.of_nat k), w_encode w fr) payload) /\
    (forall q, is_under output_dir q = true -> lookup q (w_files w1) = None) /\
    ~ In output_dir (w_dirs w1) /\
    lookup (Py.os_path_join tmp_dir f) (w_files w1) = None.
Proof.
  intros Hf Hm Hw Hd Hs output_dir.
  destruct (tar_body_run tar_filepath tmp_dir tar_writer f tar_file w t c Hf Hm Hw)
    as (w1 & R & _ & F & W & D).
  fold output_dir in F, W, D.
  assert (Hfs : decoded_frames w c = fs).
  { unfold decoded_frames. rewrite Hd. now apply leading_frames_stop. }
  rewrite Hfs in F, W.
  exists w1. eexists. split; [exact R|]. split; [exact W|].
  split; [|split; [|split; [exact D|]]].
  - intros k fr Hk. apply files_under_in.
    rewrite <- os_path_join_relative by apply frame_filename_relative.
    fold (frame_path output_dir (N.of_nat k)).
    rewrite lookup_delete_neq by now apply frame_path_not_staged.
    apply frames_stored_lookup, in_numbered_nth.
    split; [lia|]. now rewrite N.sub_0_r, Nat2N.id.
  - intros q Hq. rewrite F.
    rewrite (lookup_filter_key (fun k => negb (is_under output_dir k))).
    now rewrite Hq.
  - rewrite F. rewrite (lookup_filter_key (fun k => negb (is_under output_dir k))).
    destruct (negb _); [apply lookup_delete_eq | reflexivity].
Qed.

Lemma tar_entry_packs_frames_witness :
  exists w1 payload,
    tar_body "videos.tar" scratch (toy_reader "videos.tar") "o.tar" "clip1.mp4"
      (set_out [("o.tar", {| entries := []; finalized := false |})] toy_world)
      = Return tt w1 /\
    lookup "o.tar" (w_out w1)
      = Some {| entries := [] ++ [("clip1", payload)]; finalized := false |} /\
    (forall k fr, nth_error ["a"; "b"; "c"] k = Some fr ->
       In (Py.frame_filename (N.of_nat k), toy_encode fr) payload) /\
    (forall q, is_under "videos_tmp/clip1" q = true -> lookup q (w_files w1) = None) /\
    ~ In "videos_tmp/clip1" (w_dirs w1) /\
    lookup (Py.os_path_join scratch "clip1.mp4") (w_files w1) = None.
Proof.
  exact (tar_entry_packs_frames "videos.tar" scratch "o.tar" "clip1.mp4"
           (toy_reader "videos.tar")
           (set_out [("o.tar", {| entries := []; finalized := false |})] toy_world)
           {| entries := []; finalized := false |} "V:abc" ["a"; "b"; "c"] []
           eq_refl eq_refl eq_refl eq_refl I).
Defined.

Lemma no_new_files_refl (w : world) : no_new_files w w.
Proof. now intros q v H. Qed.

Lemma no_new_files_trans (a b c : world) :
  no_new_files a b -> no_new_files b c -> no_new_files a c.
Proof. intros H1 H2 q v H. now apply H1, H2. Qed.

Lemma tar_body_no_new_files (tar_filepath tmp_dir tar_writer f : string)
    (tar_file : TarArchiveReader) (w : world) (t : tar_out) :
  lookup f (r_members tar_file) <> None ->
  lookup tar_writer (w_out w) = Some t ->
  exists w1 t1,
    tar_body tar_filepath tmp_dir tar_file tar_writer f w = Return tt w1 /\
    lookup tar_writer (w_out w1) = Some t1 /\
    no_new_files w w1.
Proof.
  intros Hm Hw. destruct (Py.endswith f ".mp4") eqn:Hf.
  - destruct (lookup f (r_members tar_file)) as [c|] eqn:Hc; [|congruence].
    destruct (tar_body_run tar_filepath tmp_dir tar_writer f tar_file w t c Hf Hc Hw)
      as (w1 & R & _ & F & W & _).
    exists w1. eexists. split; [exact R|]. split; [exact W|].
    intros q v H. rewrite F in H.
    rewrite (lookup_filter_key (fun k => negb (is_under _ k))) in H.
    destruct (is_under _ q) eqn:Hu; [discriminate|]. cbn [negb] in H.
    destruct (String.eqb_spec q (Py.os_path_join tmp_dir f)) as [->|Hq].
    + now rewrite lookup_delete_eq in H.
    + rewrite lookup_delete_neq in H by assumption.
      rewrite frames_stored_outside in H by assumption.
      now rewrite lookup_store_neq in H.
  - exists w, t. unfold tar_body. rewrite Hf.
    split; [reflexivity|]. split; [assumption | apply no_new_files_refl].
Qed.

Lemma tar_loop_no_new_files (tar_filepath tmp_dir tar_writer : string)
    (tar_file : TarArchiveReader) (l : list string) :
  forall (w : world) (t : tar_out),
  (forall f, In f l -> lookup f (r_members tar_file) <> None) ->
  lookup tar_writer (w_out w) = Some t ->
  exists w1 t1,
    for_each l (tar_body tar_filepath tmp_dir tar_file tar_writer) w = Return tt w1 /\
    lookup tar_writer (w_out w1) = Some t1 /\
    no_new_files w w1.
Proof.
  induction l as [|f l IH]; intros w t Hl Hw.
  - exists w, t. split; [reflexivity|]. split; [assumption | apply no_new_files_refl].
  - destruct (tar_body_no_new_files tar_filepath tmp_dir tar_writer f tar_file w t)
      as (w1 & t1 & R1 & W1 & N1); [apply Hl; now left | exact Hw |].
    destruct (IH w1 t1) as (w2 & t2 & R2 & W2 & N2);
      [intros g Hg; apply Hl; now right | exact W1 |].
    exists w2, t2. cbn [for_each]. unfold bind. rewrite R1, R2.
    split; [reflexivity|]. split; [exact W2|].
    eapply no_new_files_trans; eassumption.
Qed.

(** X4.  Tar mode never adds a regular file to the file store: whether or
    not the archive opens, every file present after the job was present
    before it with the same bytes (frames and staged videos are all removed
    again; the output archive is the only thing written). *)
Theorem convert_to_tar_adds_no_file
    (tar_filepath tmp_dir : string) (show_progress_bar : bool) (w : world) :
  no_new_files w (final_world (convert_to_tar tar_filepath tmp_dir show_progress_bar w)).
Proof.
  destruct (w_archives w tar_filepath) as [ms|] eqn:Ha.
  - unfold convert_to_tar, try_except, TarArchiveReader_open. rewrite Ha.
    unfold bind at 1. unfold TarArchiveWriter_create. cbv zeta.
    rewrite file_list_progress. unfold get_list. cbn [r_members].
    set (out := Py.replace tar_filepath ".tar" "_decompressed.tar").
    set (w0 := set_out (store out {| entries := []; finalized := false |} (w_out w)) w).
    destruct (tar_loop_no_new_files tar_filepath tmp_dir out
                {| r_path := tar_filepath; r_members := ms |} (map fst ms) w0
                {| entries := []; finalized := false |})
      as (w1 & t1 & R & W & N).
    { intros f Hf. now apply lookup_in. }
    { apply lookup_store_eq. }
    unfold bind. rewrite R. unfold reader_close, ret, writer_close. rewrite W.
    cbn [final_world]. intros q v H. apply N. exact H.
  - destruct (open_failure_raises_type_error tar_filepath tmp_dir show_progress_bar w Ha)
      as [-> _].
    apply no_new_files_refl.
Qed.

(** X5.  Folder mode on an archive that opens but lists no video member, an
    empty archive included, returns [None] and leaves the world exactly as it
    was: no directory is created, nothing is staged, nothing is logged. *)
Theorem convert_to_folder_without_videos
    (tar_filepath tmp_dir : string) (show_progress_bar : bool)
    (w : world) (ms : list (string * bytes)) :
  w_archives w tar_filepath = Some ms ->
  filter is_mp4 (map fst ms) = [] ->
  convert_to_folder tar_filepath tmp_dir show_progress_bar w = Return VNone w.
Proof.
  intros Ha Hl. unfold convert_to_folder, try_except, TarArchiveReader_open.
  rewrite Ha. cbv zeta. rewrite file_list_progress. unfold get_list. cbn [r_members].
  unfold bind. rewrite for_each_no_video; [reflexivity | | exact Hl].
  intros f w0 Hf. unfold folder_body. unfold is_mp4 in Hf. now rewrite Hf.
Qed.

Lemma convert_to_folder_without_videos_witness :
  convert_to_folder "docs.tar" scratch true toy_world = Return VNone toy_world.
Proof.
  exact (convert_to_folder_without_videos "docs.tar" scratch true toy_world
           [("readme.txt", "hello"); ("notes.md", "todo")] eq_refl eq_refl).
Defined.

(** *** Entry names *)

Lemma basename_append (d b : string) :
  Py.has_slash b = false -> Py.basename (d ++ "/" ++ b) = b.
Proof.
  intros H. induction d as [|c d IH].
  - cbn [String.append Py.basename]. now rewrite H.
  - change (String c d ++ "/" ++ b)%string with (String c (d ++ "/" ++ b)).
    cbn [Py.basename]. rewrite has_slash_append. cbn [String.append Py.has_slash].
    change (Ascii.eqb "/" "/") with true. cbn [orb].
    rewrite orb_true_r. exact IH.
Qed.

(** X6.  The entry name and the temporary directory that tar mode gives a
    member depend on its base name only: members of different directories
    with the same base name get the same entry name and the same temporary
    directory. *)
Theorem arcname_ignores_directory (tar_filepath d1 d2 b : string) :
  Py.has_slash b = false ->
  arcname_of (d1 ++ "/" ++ b) = arcname_of (d2 ++ "/" ++ b) /\
  arcname_of (d1 ++ "/" ++ b) = Py.split_dot_0 b /\
  Py.os_path_join (Py.replace tar_filepath ".tar" "_tmp") (arcname_of (d1 ++ "/" ++ b))
    = Py.os_path_join (Py.replace tar_filepath ".tar" "_tmp") (arcname_of (d2 ++ "/" ++ b)).
Proof.
  intros H. unfold arcname_of. rewrite !basename_append by assumption.
  repeat split.
Qed.

Lemma arcname_ignores_directory_witness :
  arcname_of ("a" ++ "/" ++ "clip.mp4") = arcname_of ("b/c" ++ "/" ++ "clip.mp4") /\
  arcname_of ("a" ++ "/" ++ "clip.mp4") = Py.split_dot_0 "clip.mp4" /\
  Py.os_path_join (Py.replace "videos.tar" ".tar" "_tmp")
                  (arcname_of ("a" ++ "/" ++ "clip.mp4"))
    = Py.os_path_join (Py.replace "videos.tar" ".tar" "_tmp")
                      (arcname_of ("b/c" ++ "/" ++ "clip.mp4")).
Proof.
  exact (arcname_ignores_directory "videos.tar" "a" "b/c" "clip.mp4" eq_refl).
Defined.

(** *** The driver over several archives *)

Lemma convert_job_opens (m : Mode) (tar_filepath tmp_dir : string) (b : bool)
    (w : world) (ms : list (string * bytes)) :
  w_archives w tar_filepath = Some ms ->
  exists w' evs,
    CONVERT_MAP m tar_filepath tmp_dir b w = Return VNone w' /\
    same_env w w' /\
    w_trace w' = w_trace w ++ evs /\
    staged_members evs = filter is_mp4 (map fst ms).
Proof.
  intros Ha. destruct m; cbn [CONVERT_MAP].
  - destruct (convert_to_folder_spec tar_filepath tmp_dir b w ms Ha)
      as (w' & evs & R & E & _ & T & S).
    now exists w', evs.
  - destruct (convert_to_tar_spec tar_filepath tmp_dir b w ms Ha)
      as (w' & es & evs & R & E & _ & _ & T & S).
    now exists w', evs.
Qed.

Lemma convert_job_fails (m : Mode) (tar_filepath tmp_dir : string) (b : bool) (w : world) :
  w_archives w tar_filepath = None ->
  CONVERT_MAP m tar_filepath tmp_dir b w
    = Raise (TypeError "can only concatenate str to str") w.
Proof.
  intros Ha.
  destruct (open_failure_raises_type_error tar_filepath tmp_dir b w Ha) as [Ht Hf].
  now destruct m.
Qed.

Lemma video_members_same_env (w w' : world) (f : string) :
  same_env w w' -> video_members w' f = video_members w f.
Proof. intros (E & _). unfold video_members. now rewrite E. Qed.

Section JobLoop.

Variable body : string -> io unit.

Hypothesis body_opens : forall f w ms,
  w_archives w f = Some ms ->
  exists w' evs,
    body f w = Return tt w' /\ same_env w w' /\
    w_trace w' = w_trace w ++ evs /\
    staged_members evs = filter is_mp4 (map fst ms).

Hypothesis body_fails : forall f w,
  w_archives w f = None ->
  exists w',
    body f w = Raise (TypeError "can only concatenate str to str") w' /\
    w_trace w' = w_trace w.

Lemma job_loop_all_open (fs : list string) : forall w,
  (forall f, In f fs -> w_archives w f <> None) ->
  exists w' evs,
    for_each fs body w = Return tt w' /\ same_env w w' /\
    w_trace w' = w_trace w ++ evs /\
    staged_members evs = flat_map (video_members w) fs.
Proof.
  induction fs as [|f fs IH]; intros w Hl.
  - exists w, []. split; [reflexivity|]. split; [env|]. now rewrite app_nil_r.
  - destruct (w_archives w f) as [ms|] eqn:Ha; [|exfalso; apply (Hl f); [now left | exact Ha]].
    destruct (body_opens f w ms Ha) as (w1 & e1 & R1 & E1 & T1 & S1).
    destruct (IH w1) as (w2 & e2 & R2 & E2 & T2 & S2).
    { intros g Hg. destruct E1 as (-> & _). apply Hl. now right. }
    exists w2, (e1 ++ e2). cbn [for_each]. unfold bind. rewrite R1, R2.
    split; [reflexivity|]. split; [env|].
    split; [rewrite T2, T1; symmetry; apply app_assoc|].
    rewrite staged_members_app, S1, S2. cbn [flat_map]. f_equal.
    + unfold video_members. now rewrite Ha.
    + apply flat_map_ext. intros g. now apply video_members_same_env.
Qed.

Lemma job_loop_first_failure (before after : list string) (bad : string) : forall w,
  (forall f, In f before -> w_archives w f <> None) ->
  w_archives w bad = None ->
  exists w' evs,
    for_each (before ++ bad :: after) body w
      = Raise (TypeError "can only concatenate str to str") w' /\
    w_trace w' = w_trace w ++ evs /\
    staged_members evs = flat_map (video_members w) before.
Proof.
  induction before as [|f before IH]; intros w Hl Hb.
  - destruct (body_fails bad w Hb) as (w' & R & T).
    exists w', []. cbn [app for_each]. unfold bind. rewrite R.
    split; [reflexivity|]. now rewrite app_nil_r.
  - destruct (w_archives w f) as [ms|] eqn:Ha; [|exfalso; apply (Hl f); [now left | exact Ha]].
    destruct (body_opens f w ms Ha) as (w1 & e1 & R1 & E1 & T1 & S1).
    destruct (IH w1) as (w2 & e2 & R2 & T2 & S2).
    { intros g Hg. destruct E1 as (-> & _). apply Hl. now right. }
    { destruct E1 as (-> & _). exact Hb. }
    exists w2, (e1 ++ e2). cbn [app for_each]. unfold bind. rewrite R1.
    cbn [app for_each] in R2. rewrite R2.
    split; [reflexivity|].
    split; [rewrite T2, T1; symmetry; apply app_assoc|].
    rewrite staged_members_app, S1, S2. cbn [flat_map]. f_equal.
    + unfold video_members. now rewrite Ha.
    + apply flat_map_ext. intros g. now apply video_members_same_env.
Qed.

Lemma job_loop_outcomes (fs : list string) : forall w,
  result (for_each fs body w) = inl tt \/
  result (for_each fs body w) = inr (TypeError "can only concatenate str to str").
Proof.
  induction fs as [|f fs IH]; intros w; [now left|].
  cbn [for_each]. unfold bind.
  destruct (w_archives w f) as [ms|] eqn:Ha.
  - destruct (body_opens f w ms Ha) as (w1 & e1 & R1 & _). rewrite R1. apply IH.
  - destruct (body_fails f w Ha) as (w1 & R1 & _). rewrite R1. now right.
Qed.

End JobLoop.

(** The two loop bodies of [main], over the converter of either mode. *)
Lemma sequential_body_opens (m : Mode) (tmp : string) (f : string) (w : world)
    (ms : list (string * bytes)) :
  w_archives w f = Some ms ->
  exists w' evs,
    (logger_info ("Processing " ++ f) ;;;
     _ <- CONVERT_MAP m f tmp true ;; ret tt) w = Return tt w' /\
    same_env w w' /\
    w_trace w' = w_trace w ++ evs /\
    staged_members evs = filter is_mp4 (map fst ms).
Proof.
  intros Ha. unfold bind, logger_info.
  destruct (convert_job_opens m f tmp true (add_log INFO ("Processing " ++ f) w) ms Ha)
    as (w' & evs & R & E & T & S).
  rewrite R. exists w', evs. split; [reflexivity|]. split; [env|]. now split.
Qed.

Lemma sequential_body_fails (m : Mode) (tmp : string) (f : string) (w : world) :
  w_archives w f = None ->
  exists w',
    (logger_info ("Processing " ++ f) ;;;
     _ <- CONVERT_MAP m f tmp true ;; ret tt) w
      = Raise (TypeError "can only concatenate str to str") w' /\
    w_trace w' = w_trace w.
Proof.
  intros Ha. unfold bind, logger_info.
  rewrite (convert_job_fails m f tmp true (add_log INFO ("Processing " ++ f) w) Ha).
  eexists. split; reflexivity.
Qed.

Lemma pool_body_opens (m : Mode) (tmp : string) (f : string) (w : world)
    (ms : list (string * bytes)) :
  w_archives w f = Some ms ->
  exists w' evs,
    (_ <- CONVERT_MAP m f tmp false ;; ret tt) w = Return tt w' /\
    same_env w w' /\
    w_trace w' = w_trace w ++ evs /\
    staged_members evs = filter is_mp4 (map fst ms).
Proof.
  intros Ha. unfold bind.
  destruct (convert_job_opens m f tmp false w ms Ha) as (w' & evs & R & E & T & S).
  rewrite R. now exists w', evs.
Qed.

Lemma pool_body_fails (m : Mode) (tmp : string) (f : string) (w : world) :
  w_archives w f = None ->
  exists w',
    (_ <- CONVERT_MAP m f tmp false ;; ret tt) w
      = Raise (TypeError "can only concatenate str to str") w' /\
    w_trace w' = w_trace w.
Proof.
  intros Ha. unfold bind. rewrite (convert_job_fails m f tmp false w Ha).
  eexists. split; reflexivity.
Qed.

(** With a pattern that ends in [.tar], [main] reaches its job loop in a world
    that differs from the initial one by two log lines and the scratch
    root. *)
Lemma main_reaches_jobs (args : Args) (w : world) :
  Py.last_chars 4 (files args) = ".tar" ->
  exists w0,
    same_env w w0 /\ w_trace w0 = w_trace w /\ In (tmp_dir args) (w_dirs w0) /\
    main args w =
      ((if (jobs args >? 1)%Z
        then pool_imap (fun f => CONVERT_MAP (mode args) f (tmp_dir args) false)
                       (w_glob w (files args))
        else
          logger_info
            "Note: You can also run this code using multi-processing by setting `-j` option." ;;;
          for_each (w_glob w (files args)) (fun f =>
            logger_info ("Processing " ++ f) ;;;
            _ <- CONVERT_MAP (mode args) f (tmp_dir args) true ;;
            ret tt)) ;;;
       ret VNone) w0.
Proof.
  intros Hp. unfold main. rewrite Hp. cbn [String.eqb Ascii.eqb Bool.eqb negb].
  unfold bind at 1. unfold ret at 1. unfold bind at 1. unfold glob_glob.
  unfold bind at 1. unfold logger_info at 1. unfold bind at 1. unfold logger_info at 1.
  cbv zeta. unfold bind at 1.
  match goal with
  | |- context [os_makedirs ?p ?wl] =>
      destruct (os_makedirs_spec p wl) as (w0 & R0 & E0 & X0 & _ & _ & _ & T0)
  end.
  rewrite R0. exists w0. split; [env|]. split; [exact T0|].
  split; [now apply existsb_eqb_in | reflexivity].
Qed.

(** X7.  [main] raises [SystemExit] exactly when the pattern does not end
    in [.tar]: with such a pattern all it does is log that error and exit,
    before any glob, scratch root or job; with a pattern that ends in [.tar]
    it never exits that way. *)
Theorem main_exits_only_on_bad_pattern (args : Args) (w : world) :
  (Py.last_chars 4 (files args) <> ".tar" ->
     main args w
       = Raise SystemExit (add_log ERROR "File pattern must end with '.tar'!" w)) /\
  (Py.last_chars 4 (files args) = ".tar" ->
     result (main args w) <> inr SystemExit).
Proof.
  split.
  - intros Hp. unfold main.
    destruct (String.eqb_spec (Py.last_chars 4 (files args)) ".tar") as [E|_];
      [contradiction|].
    reflexivity.
  - intros Hp. destruct (main_reaches_jobs args w Hp) as (w0 & _ & _ & _ & ->).
    assert (K : forall o : outcome unit,
               result o = inl tt \/
               result o = inr (TypeError "can only concatenate str to str") ->
               result (match o with
                       | Return _ w' => ret VNone w'
                       | Raise e w' => Raise e w'
                       end) <> inr SystemExit).
    { intros [[] w1|e w1] [H|H]; cbn in H; try discriminate H;
        [discriminate | injection H as ->; discriminate]. }
    unfold bind at 1. destruct (jobs args >? 1)%Z.
    + unfold pool_imap. apply K.
      apply (job_loop_outcomes _ (pool_body_opens (mode args) (tmp_dir args))
               (pool_body_fails (mode args) (tmp_dir args))).
    + unfold bind at 1. unfold logger_info at 1. apply K.
      apply (job_loop_outcomes _ (sequential_body_opens (mode args) (tmp_dir args))
               (sequential_body_fails (mode args) (tmp_dir args))).
Qed.

Lemma main_exits_only_on_bad_pattern_witness :
  main {| files := "*.tgz"; mode := tar; jobs := 2; tmp_dir := scratch |} toy_world
    = Raise SystemExit (add_log ERROR "File pattern must end with '.tar'!" toy_world) /\
  result (main {| files := "sets/*.tar"; mode := tar; jobs := 1; tmp_dir := scratch |}
            toy_world_readable) <> inr SystemExit.
Proof.
  split.
  - apply (proj1 (main_exits_only_on_bad_pattern
                    {| files := "*.tgz"; mode := tar; jobs := 2; tmp_dir := scratch |}
                    toy_world)).
    vm_compute. discriminate.
  - apply (proj2 (main_exits_only_on_bad_pattern
                    {| files := "sets/*.tar"; mode := tar; jobs := 1; tmp_dir := scratch |}
                    toy_world_readable)).
    reflexivity.
Defined.





(** *** The order of frame file names *)

Lemma decimal_value_from_acc (s : string) : forall acc,
  Py.decimal_value_from acc s
  = (acc * 10 ^ N.of_nat (String.length s) + Py.decimal_value_from 0 s)%N.
Proof.
  induction s as [|c s IH]; intros acc; cbn [Py.decimal_value_from String.length].
  - rewrite N.pow_0_r. lia.
  - rewrite IH, (IH (10 * 0 + Py.digit_value c)%N), Nat2N.inj_succ, N.pow_succ_r'. lia.
Qed.

Lemma decimal_value_cons (c : ascii) (s : string) :
  Py.decimal_value (String c s)
  = (Py.digit_value c * 10 ^ N.of_nat (String.length s) + Py.decimal_value s)%N.
Proof.
  unfold Py.decimal_value. cbn [Py.decimal_value_from].
  rewrite decimal_value_from_acc. f_equal.
Qed.

Lemma decimal_value_bound (s : string) :
  all_digits s = true -> (Py.decimal_value s < 10 ^ N.of_nat (String.length s))%N.
Proof.
  induction s as [|c s IH]; intros H.
  - cbn. lia.
  - cbn [all_digits] in H. apply andb_true_iff in H as [Hc Hs].
    rewrite decimal_value_cons. cbn [String.length].
    rewrite Nat2N.inj_succ, N.pow_succ_r'. specialize (IH Hs).
    unfold is_digit in Hc. apply andb_true_iff in Hc as [_ Hc]. apply N.leb_le in Hc.
    assert (Py.digit_value c <= 9)%N by (unfold Py.digit_value; lia).
    assert (Py.digit_value c * 10 ^ N.of_nat (String.length s)
            <= 9 * 10 ^ N.of_nat (String.length s))%N
      by (apply N.mul_le_mono_r; assumption).
    lia.
Qed.

(** On digit strings of one length, the lexicographic order is the order of
    the values. *)
Lemma compare_digit_strings (a : string) : forall b,
  all_digits a = true -> all_digits b = true ->
  String.length a = String.length b ->
  (Py.decimal_value a < Py.decimal_value b)%N ->
  String.compare a b = Lt.
Proof.
  induction a as [|c1 a IH]; intros [|c2 b] Ha Hb L V; try discriminate.
  cbn [all_digits] in Ha, Hb.
  apply andb_true_iff in Ha as [Hc1 Ha], Hb as [Hc2 Hb].
  cbn [String.length] in L. injection L as L.
  rewrite !decimal_value_cons, L in V.
  pose proof (decimal_value_bound a Ha) as Ba.
  pose proof (decimal_value_bound b Hb) as Bb. rewrite L in Ba.
  unfold is_digit in Hc1, Hc2.
  apply andb_true_iff in Hc1 as [L1 _], Hc2 as [L2 _].
  apply N.leb_le in L1, L2.
  cbn [String.compare]. unfold Ascii.compare.
  destruct (N.compare_spec (N_of_ascii c1) (N_of_ascii c2)) as [E|Lt|Gt].
  - apply IH; try assumption. unfold Py.digit_value in V. rewrite E in V. lia.
  - reflexivity.
  - exfalso.
    assert (Py.digit_value c2 + 1 <= Py.digit_value c1)%N
      by (unfold Py.digit_value; lia).
    assert ((Py.digit_value c2 + 1) * 10 ^ N.of_nat (String.length b)
            <= Py.digit_value c1 * 10 ^ N.of_nat (String.length b))%N
      by (apply N.mul_le_mono_r; assumption).
    lia.
Qed.

Lemma compare_append_tail (a : string) : forall b t,
  String.length a = String.length b ->
  String.compare a b = Lt -> String.compare (a ++ t) (b ++ t) = Lt.
Proof.
  induction a as [|c1 a IH]; intros [|c2 b] t L H; try discriminate.
  cbn [String.append String.compare] in *.
  destruct (Ascii.compare c1 c2); try assumption.
  apply IH; [now injection L | assumption].
Qed.

Lemma compare_append_head (p a b : string) :
  String.compare (p ++ a) (p ++ b) = String.compare a b.
Proof.
  induction p as [|c p IH]; [reflexivity|].
  cbn [String.append String.compare]. unfold Ascii.compare.
  now rewrite N.compare_refl.
Qed.

(** X10.  Below 10^8 frames, the frame files of one video sort by name in
    the order of their indices: for [i < j] the path of frame [i] is
    lexicographically smaller than the path of frame [j]. *)
Theorem frame_files_sort_by_index (output_dir : string) (i j : N) :
  (i < j)%N -> (j < 10 ^ 8)%N ->
  String.ltb (Py.os_path_join output_dir (Py.frame_filename i))
             (Py.os_path_join output_dir (Py.frame_filename j)) = true.
Proof.
  intros Hij Hj. unfold String.ltb.
  rewrite !os_path_join_relative by apply frame_filename_relative.
  rewrite compare_append_head. unfold Py.frame_filename.
  rewrite compare_append_tail; [reflexivity | |].
  - rewrite !length_zfill_8 by lia. reflexivity.
  - apply compare_digit_strings; try apply all_digits_zfill.
    + rewrite !length_zfill_8 by lia. reflexivity.
    + now rewrite !decimal_value_zfill.
Qed.

Lemma frame_files_sort_by_index_witness :
  String.ltb (Py.os_path_join "out" (Py.frame_filename 9))
             (Py.os_path_join "out" (Py.frame_filename 10)) = true.
Proof.
  apply (frame_files_sort_by_index "out" 9 10); lia.
Defined.

(** *** What the converters log *)

Section EntryLog.

Variable tar_file : TarArchiveReader.
Variable body : string -> io unit.
Variable Inv : world -> Prop.

Hypothesis body_step : forall f w,
  Inv w -> lookup f (r_members tar_file) <> None ->
  exists w',
    body f w = Return tt w' /\ Inv w' /\ same_env w w' /\
    w_log w' = w_log w ++ open_errors w (r_members tar_file) [f].

Lemma open_errors_same_env (w w' : world) (l : list string) :
  same_env w w' ->
  open_errors w' (r_members tar_file) l = open_errors w (r_members tar_file) l.
Proof.
  intros (_ & _ & E & _). unfold open_errors. f_equal. apply filter_ext.
  intros f. unfold unopenable. now rewrite E.
Qed.

Lemma open_errors_cons (w : world) (f : string) (l : list string) :
  open_errors w (r_members tar_file) (f :: l)
  = open_errors w (r_members tar_file) [f] ++ open_errors w (r_members tar_file) l.
Proof.
  unfold open_errors. cbn [filter]. destruct (is_mp4 f); [|reflexivity].
  cbn [filter]. destruct (unopenable w (r_members tar_file) f); reflexivity.
Qed.

Lemma entry_loop_log (l : list string) : forall w,
  Inv w ->
  (forall f, In f l -> lookup f (r_members tar_file) <> None) ->
  exists w',
    for_each l body w = Return tt w' /\ Inv w' /\ same_env w w' /\
    w_log w' = w_log w ++ open_errors w (r_members tar_file) l.
Proof.
  induction l as [|f l IH]; intros w Hi Hl.
  - exists w. split; [reflexivity|]. split; [assumption|]. split; [env|].
    unfold open_errors. cbn. now rewrite app_nil_r.
  - destruct (body_step f w Hi) as (w1 & R1 & I1 & E1 & L1); [apply Hl; now left|].
    destruct (IH w1 I1) as (w2 & R2 & I2 & E2 & L2); [intros g Hg; apply Hl; now right|].
    exists w2. cbn [for_each]. unfold bind. rewrite R1, R2.
    split; [reflexivity|]. split; [assumption|]. split; [env|].
    rewrite L2, L1, (open_errors_same_env w w1 l E1), (open_errors_cons w f l).
    now rewrite app_assoc.
Qed.

End EntryLog.

Lemma convert_from_tar_log (tar_file : TarArchiveReader)
    (f output_dir tmp_dir : string) (w : world) :
  Py.endswith f ".mp4" = true ->
  lookup f (r_members tar_file) <> None ->
  exists w',
    convert_from_tar tar_file f output_dir tmp_dir w = Return VNone w' /\
    same_env w w' /\ same_dirs_out w w' /\
    w_log w' = w_log w ++ open_errors w (r_members tar_file) [f].
Proof.
  intros Hf Hm. destruct (lookup f (r_members tar_file)) as [c|] eqn:Hc; [|congruence].
  destruct (convert_from_tar_spec tar_file f output_dir tmp_dir w c Hc)
    as (w' & R & E & D & L & _).
  exists w'. split; [exact R|]. split; [exact E|]. split; [exact D|].
  rewrite L. unfold open_errors, is_mp4, unopenable. cbn [filter]. rewrite Hf.
  cbn [filter]. rewrite Hc. now destruct (w_decode w c).
Qed.

Lemma open_errors_not_video (w : world) (ms : list (string * bytes)) (f : string) :
  Py.endswith f ".mp4" = false -> open_errors w ms [f] = [].
Proof. intros H. unfold open_errors, is_mp4. cbn [filter]. now rewrite H. Qed.

Lemma folder_body_log (tar_filepath tmp_dir : string) (tar_file : TarArchiveReader)
    (f : string) (w : world) :
  True -> lookup f (r_members tar_file) <> None ->
  exists w',
    folder_body tar_filepath tmp_dir tar_file f w = Return tt w' /\ True /\
    same_env w w' /\
    w_log w' = w_log w ++ open_errors w (r_members tar_file) [f].
Proof.
  intros _ Hm. unfold folder_body. destruct (Py.endswith f ".mp4") eqn:Hf.
  - set (output_dir := Py.os_path_join _ _).
    destruct (os_makedirs_spec output_dir w) as (w0 & R0 & E0 & _ & _ & _ & L0 & _).
    destruct (convert_from_tar_log tar_file f output_dir tmp_dir w0 Hf Hm)
      as (w1 & R1 & E1 & _ & L1).
    exists w1. unfold bind. rewrite R0, R1. split; [reflexivity|]. split; [exact I|].
    split; [env|].
    rewrite L1, L0. f_equal. now apply open_errors_same_env.
  - exists w. split; [reflexivity|]. split; [exact I|]. split; [env|].
    rewrite open_errors_not_video by assumption. now rewrite app_nil_r.
Qed.

Lemma tar_body_log (tar_filepath tmp_dir tar_writer : string)
    (tar_file : TarArchiveReader) (f : string) (w : world) :
  lookup tar_writer (w_out w) <> None -> lookup f (r_members tar_file) <> None ->
  exists w',
    tar_body tar_filepath tmp_dir tar_file tar_writer f w = Return tt w' /\
    lookup tar_writer (w_out w') <> None /\
    same_env w w' /\
    w_log w' = w_log w ++ open_errors w (r_members tar_file) [f].
Proof.
  intros Hw Hm. unfold tar_body. destruct (Py.endswith f ".mp4") eqn:Hf.
  - set (output_dir := Py.os_path_join _ _).
    destruct (lookup tar_writer (w_out w)) as [t|] eqn:Ht; [|congruence].
    destruct (os_makedirs_spec output_dir w) as (w0 & R0 & E0 & X0 & O0 & _ & L0 & _).
    destruct (convert_from_tar_log tar_file f output_dir tmp_dir w0 Hf Hm)
      as (w1 & R1 & E1 & (D1 & O1) & L1).
    unfold bind. rewrite R0, R1. unfold add_file. rewrite O1, O0, Ht.
    unfold shutil_rmtree. cbn [w_dirs set_out]. rewrite D1, X0.
    eexists. split; [reflexivity|].
    cbn [w_out w_log set_dirs set_files set_out].
    split; [rewrite lookup_store_eq; discriminate|]. split; [env|].
    rewrite L1, L0. f_equal. now apply open_errors_same_env.
  - exists w. split; [reflexivity|]. split; [assumption|]. split; [env|].
    rewrite open_errors_not_video by assumption. now rewrite app_nil_r.
Qed.



(** X13.  Folder mode never creates or changes an output archive, whether
    the input archive opens or not. *)
Theorem convert_to_folder_keeps_output_archives
    (tar_filepath tmp_dir : string) (show_progress_bar : bool) (w : world) :
  w_out (final_world (convert_to_folder tar_filepath tmp_dir show_progress_bar w))
    = w_out w.
Proof.
  destruct (w_archives w tar_filepath) as [ms|] eqn:Ha.
  - destruct (convert_to_folder_spec tar_filepath tmp_dir show_progress_bar w ms Ha)
      as (w' & evs & R & _ & O & _).
    now rewrite R.
  - destruct (open_failure_raises_type_error tar_filepath tmp_dir show_progress_bar w Ha)
      as [_ ->].
    reflexivity.
Qed.

(** *** Staged videos after a whole job *)

Section StagedGone.

Variable tmp_dir : string.
Variable tar_file : TarArchiveReader.
Variable body : string -> io unit.
Variable Inv : world -> Prop.

(** One turn of the loop removes the staged file of its own member, when
    that is a video, and brings back no path ending in [.mp4] that was
    absent. *)
Hypothesis body_step : forall f w,
  Inv w -> lookup f (r_members tar_file) <> None ->
  exists w',
    body f w = Return tt w' /\ Inv w' /\
    (is_mp4 f = true -> lookup (Py.os_path_join tmp_dir f) (w_files w') = None) /\
    (forall q, Py.endswith q ".mp4" = true ->
               lookup q (w_files w) = None -> lookup q (w_files w') = None).

Lemma staged_gone_after_loop (l : list string) : forall w,
  Inv w ->
  (forall f, In f l -> lookup f (r_members tar_file) <> None) ->
  exists w',
    for_each l body w = Return tt w' /\ Inv w' /\
    (forall f, In f l -> is_mp4 f = true ->
               lookup (Py.os_path_join tmp_dir f) (w_files w') = None) /\
    (forall q, Py.endswith q ".mp4" = true ->
               lookup q (w_files w) = None -> lookup q (w_files w') = None).
Proof.
  induction l as [|f l IH]; intros w Hi Hl.
  - exists w. split; [reflexivity|]. split; [assumption|]. split; [intros f []|auto].
  - destruct (body_step f w Hi) as (w1 & R1 & I1 & S1 & K1); [apply Hl; now left|].
    destruct (IH w1 I1) as (w2 & R2 & I2 & S2 & K2); [intros g Hg; apply Hl; now right|].
    exists w2. cbn [for_each]. unfold bind. rewrite R1, R2.
    split; [reflexivity|]. split; [assumption|]. split.
    + intros g [<-|Hg] Hv.
      * apply K2; [now apply os_path_join_endswith | now apply S1].
      * now apply S2.
    + intros q Hq H. now apply K2, K1.
Qed.

End StagedGone.

Lemma staged_files_after_entry (output_dir p q : string) (c : bytes)
    (encode : frame -> bytes) (l : list frame) (fs : list (string * bytes)) :
  Py.endswith q ".mp4" = true ->
  (q = p \/ lookup q fs = None) ->
  lookup q (delete p (frames_stored encode output_dir 0 l (store p c fs))) = None.
Proof.
  intros Hq H. destruct (String.eqb_spec q p) as [->|Hne]; [apply lookup_delete_eq|].
  destruct H as [H|H]; [contradiction|].
  rewrite lookup_delete_neq by assumption.
  rewrite frames_stored_other.
  - now rewrite lookup_store_neq.
  - rewrite in_map_iff. intros (k & E & _).
    assert (J : Py.endswith (frame_path output_dir k) ".jpg" = true).
    { apply os_path_join_endswith, endswith_iff. now exists (Py.zfill 8 (Py.str k)). }
    rewrite E in J. apply endswith_iff in Hq as (p1 & H1), J as (p2 & H2).
    rewrite H1 in H2. apply append_same_length_tail in H2; [discriminate | reflexivity].
Qed.

Lemma folder_body_staged (tar_filepath tmp_dir : string) (tar_file : TarArchiveReader)
    (f : string) (w : world) :
  True -> lookup f (r_members tar_file) <> None ->
  exists w',
    folder_body tar_filepath tmp_dir tar_file f w = Return tt w' /\ True /\
    (is_mp4 f = true -> lookup (Py.os_path_join tmp_dir f) (w_files w') = None) /\
    (forall q, Py.endswith q ".mp4" = true ->
               lookup q (w_files w) = None -> lookup q (w_files w') = None).
Proof.
  intros _ Hm. unfold folder_body, is_mp4. destruct (Py.endswith f ".mp4") eqn:Hf.
  - set (output_dir := Py.os_path_join _ _).
    destruct (lookup f (r_members tar_file)) as [c|] eqn:Hc; [|congruence].
    destruct (os_makedirs_spec output_dir w) as (w0 & R0 & _ & X0 & _ & F0 & _ & _).
    destruct (convert_from_tar_spec_dir tar_file f output_dir tmp_dir w0 c Hc
                (dir_exists_recorded w0 output_dir X0))
      as (w1 & R1 & _ & _ & _ & _ & F1).
    exists w1. unfold bind. rewrite R0, R1. split; [reflexivity|]. split; [exact I|].
    rewrite F1, F0. split.
    + intros _. apply staged_files_after_entry;
        [now apply os_path_join_endswith | now left].
    + intros q Hq H. apply staged_files_after_entry; [assumption | now right].
  - exists w. split; [reflexivity|]. split; [exact I|]. split; [discriminate | auto].
Qed.

Lemma tar_body_staged (tar_filepath tmp_dir tar_writer : string)
    (tar_file : TarArchiveReader) (f : string) (w : world) :
  lookup tar_writer (w_out w) <> None -> lookup f (r_members tar_file) <> None ->
  exists w',
    tar_body tar_filepath tmp_dir tar_file tar_writer f w = Return tt w' /\
    lookup tar_writer (w_out w') <> None /\
    (is_mp4 f = true -> lookup (Py.os_path_join tmp_dir f) (w_files w') = None) /\
    (forall q, Py.endswith q ".mp4" = true ->
               lookup q (w_files w) = None -> lookup q (w_files w') = None).
Proof.
  intros Hw Hm. unfold is_mp4. destruct (Py.endswith f ".mp4") eqn:Hf.
  - destruct (lookup f (r_members tar_file)) as [c|] eqn:Hc; [|congruence].
    destruct (lookup tar_writer (w_out w)) as [t|] eqn:Ht; [|congruence].
    destruct (tar_body_run tar_filepath tmp_dir tar_writer f tar_file w t c Hf Hc Ht)
      as (w1 & R & _ & F & W & _).
    exists w1. split; [exact R|]. split; [rewrite W; discriminate|].
    rewrite F. split.
    + intros _. rewrite (lookup_filter_key (fun k => negb (is_under _ k))).
      destruct (negb _); [|reflexivity].
      apply staged_files_after_entry; [now apply os_path_join_endswith | now left].
    + intros q Hq H. rewrite (lookup_filter_key (fun k => negb (is_under _ k))).
      destruct (negb _); [|reflexivity].
      apply staged_files_after_entry; [assumption | now right].
  - exists w. unfold tar_body. rewrite Hf.
    split; [reflexivity|]. split; [assumption|]. split; [discriminate | auto].
Qed.

(** X14.  After a whole job on an archive that opens, in either mode, no
    staged video is left in the scratch root: for every video member [f] of
    the archive there is no file at [os.path.join(tmp_dir, f)]. *)
Theorem no_staged_video_left_after_job
    (tar_filepath tmp_dir f : string) (show_progress_bar : bool)
    (w : world) (ms : list (string * bytes)) :
  w_archives w tar_filepath = Some ms ->
  In f (map fst ms) ->
  Py.endswith f ".mp4" = true ->
  lookup (Py.os_path_join tmp_dir f)
    (w_files (final_world (convert_to_folder tar_filepath tmp_dir show_progress_bar w)))
    = None /\
  lookup (Py.os_path_join tmp_dir f)
    (w_files (final_world (convert_to_tar tar_filepath tmp_dir show_progress_bar w)))
    = None.
Proof.
  intros Ha Hin Hf. split.
  - unfold convert_to_folder, try_except, TarArchiveReader_open. rewrite Ha.
    cbv zeta. rewrite file_list_progress. unfold get_list. cbn [r_members].
    destruct (staged_gone_after_loop tmp_dir
                {| r_path := tar_filepath; r_members := ms |}
                (folder_body tar_filepath tmp_dir
                   {| r_path := tar_filepath; r_members := ms |})
                (fun _ => True)
                (folder_body_staged tar_filepath tmp_dir
                   {| r_path := tar_filepath; r_members := ms |})
                (map fst ms) w I)
      as (w1 & R & _ & S & _).
    { intros g Hg. now apply lookup_in. }
    unfold bind. rewrite R. cbn [final_world ret]. now apply S.
  - unfold convert_to_tar, try_except, TarArchiveReader_open. rewrite Ha.
    unfold bind at 1. unfold TarArchiveWriter_create. cbv zeta.
    rewrite file_list_progress. unfold get_list. cbn [r_members].
    set (out := Py.replace tar_filepath ".tar" "_decompressed.tar").
    set (w0 := set_out (store out {| entries := []; finalized := false |} (w_out w)) w).
    destruct (staged_gone_after_loop tmp_dir
                {| r_path := tar_filepath; r_members := ms |}
                (tar_body tar_filepath tmp_dir
                   {| r_path := tar_filepath; r_members := ms |} out)
                (fun w => lookup out (w_out w) <> None)
                (tar_body_staged tar_filepath tmp_dir out
                   {| r_path := tar_filepath; r_members := ms |})
                (map fst ms) w0)
      as (w1 & R & W & S & _).
    { unfold w0. cbn [w_out set_out]. rewrite lookup_store_eq. discriminate. }
    { intros g Hg. now apply lookup_in. }
    unfold bind. rewrite R. unfold reader_close, ret, writer_close.
    destruct (lookup out (w_out w1)) as [t1|] eqn:Ht; [|congruence].
    cbn [final_world w_files set_out]. now apply S.
Qed.

Lemma no_staged_video_left_after_job_witness :
  lookup (Py.os_path_join scratch "clip2.mp4")
    (w_files (final_world (convert_to_folder "mixed.tar" scratch true toy_world)))
    = None /\
  lookup (Py.os_path_join scratch "clip2.mp4")
    (w_files (final_world (convert_to_tar "mixed.tar" scratch true toy_world)))
    = None.
Proof.
  apply (no_staged_video_left_after_job "mixed.tar" scratch "clip2.mp4" true toy_world
           [("bad.mp4", "garbage"); ("clip2.mp4", "V:ab")] eq_refl).
  - simpl. auto.
  - reflexivity.
Defined.
